(** * A shallow embedding of the CMSStyle C++ package (src/src/cmsstyle.C)

    The package keeps its configuration in process-wide globals
    ([cms_lumi], [cms_energy], [cmsText], [extraText], [useCmsLogo],
    [additionalInfo], the fonts and sizes, and the 2D palette cache
    [usingPalette2D]).  They are gathered here in one record threaded
    explicitly through the setters.  Doubles are modelled as rationals [Q];
    C++ [int] arithmetic on position codes as [Z] with [Z.quot]/[Z.rem]
    (truncating division, as C++ does).  Everything the plotting engine
    (ROOT) does is recorded as an event in an output trace: text drawn on the
    pad, a logo added, a line written on [std::cerr]. *)

From Stdlib Require Import ZArith QArith Qround Qabs String Ascii List Lia.
From Stdlib Require Import DecimalString Lqa.
Import ListNotations.

Open Scope string_scope.

(** ** Helpers for C++ idioms *)

(** [a < b] on doubles. *)
Definition Qltb (x y : Q) : bool := negb (Qle_bool y x).

(** [s.find(pat) != std::string::npos]. *)
Fixpoint contains (pat s : string) : bool :=
  if String.prefix pat s then true
  else match s with
       | EmptyString => false
       | String _ s' => contains pat s'
       end.

(** [::tolower] on one (ASCII) character. *)
Definition tolower (c : ascii) : ascii :=
  let n := nat_of_ascii c in
  if (65 <=? n)%nat && (n <=? 90)%nat then ascii_of_nat (n + 32) else c.

Fixpoint str_map (f : ascii -> ascii) (s : string) : string :=
  match s with
  | EmptyString => EmptyString
  | String c s' => String (f c) (str_map f s')
  end.

(** [std::transform(a.begin(),a.end(),a.begin(),::tolower)]. *)
Definition lower (s : string) : string := str_map tolower s.

(** Conversion of a double to an integer type: truncation toward zero. *)
Definition trunc (x : Q) : Z := Z.quot (Qnum x) (Zpos (Qden x)).

(** Narrowing of an [Int_t] to a 16-bit [short] ([Color_t], [Style_t],
    [Width_t]): two's-complement wrap-around. *)
Definition to_short (z : Z) : Z :=
  let m := (z mod 65536)%Z in if (32768 <=? m)%Z then (m - 65536)%Z else m.

(** ** The global configuration (cmsstyle.H globals) *)

Record CmsState := mkState {
  cms_lumi : string;
  cms_energy : string;
  cmsText : string;
  extraText : string;
  useCmsLogo : string;
  additionalInfo : list string;
  cmsTextFont : Z;
  extraTextFont : Z;
  additionalInfoFont : Z;
  cmsTextSize : Q;
  extraOverCmsTextSize : Q;
  lumiTextSize : Q;
  lumiTextOffset : Q
}.

(** What the routines send to the outside world. *)
Inductive Event :=
| DrawText (text : string) (x y : Q) (font align : Z) (size : Q)
| AddLogo (x0 y0 x1 y1 : Q) (file : string)
| Cerr (msg : string).

(** The geometry of a [TPad] as read by [CMS_lumi]. *)
Record Pad := mkPad {
  GetWh : Q; GetHNDC : Q; GetWw : Q; GetWNDC : Q;
  GetLeftMargin : Q; GetTopMargin : Q; GetRightMargin : Q; GetBottomMargin : Q
}.

(** ** CMS_lumi (cmsstyle.C, lines 406-496) *)

Module Lumi.

Open Scope list_scope.
Open Scope Q_scope.

Definition relPosX : Q := 0.035.
Definition relPosY : Q := 0.035.
Definition relExtraDY : Q := 1.2.

(** Lines 418-421: [(outOfFrame, alignX_, alignY_, align_)]. *)
Definition decode (iPosX : Z) : bool * Z * Z * Z :=
  let outOfFrame := Z.eqb (Z.quot iPosX 10) 0 in
  let alignX_ := Z.max (Z.quot iPosX 10) 1 in
  let alignY_ := (if Z.eqb iPosX 0 then 1 else 3)%Z in
  (outOfFrame, alignX_, alignY_, (10 * alignX_ + alignY_)%Z).

(** Lines 442-445: the initial value of [posX_]. *)
Definition posX0 (iPosX : Z) (l r : Q) : Q :=
  if (Z.rem iPosX 10 <=? 1)%Z then l + relPosX * (1 - l - r)
  else if (Z.rem iPosX 10 =? 2)%Z then l + 0.5 * (1 - l - r)
  else if (Z.rem iPosX 10 =? 3)%Z then 1 - r - relPosX * (1 - l - r)
  else 0.

(** Line 447: the initial value of [posY_]. *)
Definition posY0 (t b : Q) : Q := 1 - t - relPosY * (1 - t - b).

(** Lines 489-492: the additional-info lines, [i] counting from 0. *)
Fixpoint additional_lines (s : CmsState) (posX posY t : Q) (align : Z)
    (i : nat) (infos : list string) : list Event :=
  match infos with
  | [] => []
  | info :: rest =>
      DrawText info posX
        (posY - 0.004 - (relExtraDY * extraOverCmsTextSize s * cmsTextSize s * t / 2 + 0.02)
                        * inject_Z (Z.of_nat (S i)))
        (additionalInfoFont s) align (extraOverCmsTextSize s * cmsTextSize s * t)
      :: additional_lines s posX posY t align (S i) rest
  end.

Definition CMS_lumi (s : CmsState) (ppad : Pad) (iPosX : Z) (scaleLumi : Q)
    : list Event :=
  let '(outOfFrame, alignX_, alignY_, align_) := decode iPosX in
  let H := GetWh ppad * GetHNDC ppad in
  let W := GetWw ppad * GetWNDC ppad in
  let l := GetLeftMargin ppad in
  let t := GetTopMargin ppad in
  let r := GetRightMargin ppad in
  let b := GetBottomMargin ppad in
  let outOfFrame_posY := 1 - t + lumiTextOffset s * t in
  let lumiText := if String.eqb (cms_energy s) "" then cms_lumi s
                  else (cms_lumi s ++ " (" ++ cms_energy s ++ ")")%string in
  let ev_lumi := DrawText lumiText (1 - r) outOfFrame_posY 42 31
                   (lumiTextSize s * t * scaleLumi) in
  let posX_ := posX0 iPosX l r in
  let posY_ := posY0 t b in
  ev_lumi ::
  if outOfFrame then
    (if Nat.ltb 0 (String.length (useCmsLogo s))
     then [Cerr "WARNING: Usage of (graphical) CMS-logo outside the frame is not currently supported!"]
     else [])
    ++
    (let '(ev_cms, l') :=
       if negb (Nat.eqb (String.length (cmsText s)) 0) then
         let scale := if Qltb H W then H / W else 1 in
         ([DrawText (cmsText s) l outOfFrame_posY (cmsTextFont s) 11 (cmsTextSize s * t)],
          l + 0.043 * (inject_Z (extraTextFont s) * t * cmsTextSize s) * scale)
       else ([], l) in
     ev_cms ++
     (if negb (Nat.eqb (String.length (extraText s)) 0)
      then [DrawText (extraText s) l' outOfFrame_posY (extraTextFont s) align_
              (extraOverCmsTextSize s * cmsTextSize s * t)]
      else []))
    ++
    (if negb (Nat.eqb (List.length (additionalInfo s)) 0)
     then [Cerr "WARNING: Additional Info for the CMS-info part outside the frame is not currently supported!"]
     else [])
  else
    let '(ev_main, posX_, posY_) :=
      if Nat.ltb 0 (String.length (useCmsLogo s)) then
        let posX_ := l + 0.045 * (1 - l - r) * W / H in
        let posY_ := 1 - t - 0.045 * (1 - t - b) in
        ([AddLogo posX_ (posY_ - 0.15) (posX_ + 0.15 * H / W) posY_ (useCmsLogo s)],
         posX_, posY_)
      else
        let '(ev_cms, posY_) :=
          if negb (Nat.eqb (String.length (cmsText s)) 0) then
            ([DrawText (cmsText s) posX_ posY_ (cmsTextFont s) align_ (cmsTextSize s * t)],
             posY_ - relExtraDY * cmsTextSize s * t)
          else ([], posY_) in
        if negb (Nat.eqb (String.length (extraText s)) 0) then
          (ev_cms ++ [DrawText (extraText s) posX_ posY_ (extraTextFont s) align_
                        (extraOverCmsTextSize s * cmsTextSize s * t)], posX_, posY_)
        else (ev_cms, posX_, posY_ + relExtraDY * cmsTextSize s * t) in
    ev_main ++ additional_lines s posX_ posY_ t align_ 0 (additionalInfo s).

End Lumi.

(** ** Reference definitions following the spec's words (for comparison) *)

Module SpecRef.

Open Scope Q_scope.

(** The valid position codes listed by the spec. *)
Definition valid_codes : list Z := [0; 1; 2; 3; 11; 12; 13; 21; 22; 23; 31; 32; 33]%Z.


End SpecRef.

(** ** Concrete configurations used by the examples *)

Module Ex.

Open Scope Q_scope.

Definition st : CmsState := {|
  cms_lumi := "Run 2, 138 fb^{#minus1}";
  cms_energy := "13 TeV";
  cmsText := "CMS";
  extraText := "Preliminary";
  useCmsLogo := "";
  additionalInfo := [];
  cmsTextFont := 61%Z;
  extraTextFont := 52%Z;
  additionalInfoFont := 42%Z;
  cmsTextSize := 0.75;
  extraOverCmsTextSize := 0.76;
  lumiTextSize := 0.6;
  lumiTextOffset := 0.2 |}.

Definition pad : Pad := {|
  GetWh := 600; GetHNDC := 1; GetWw := 800; GetWNDC := 1;
  GetLeftMargin := 0.1; GetTopMargin := 0.1;
  GetRightMargin := 0.1; GetBottomMargin := 0.1 |}.


End Ex.

(** ** The caption setters (cmsstyle.C, lines 176-281) *)

Module Setters.

Open Scope Q_scope.

Definition set_energy_str (s : CmsState) (e : string) : CmsState :=
  {| cms_lumi := cms_lumi s; cms_energy := e; cmsText := cmsText s;
     extraText := extraText s; useCmsLogo := useCmsLogo s;
     additionalInfo := additionalInfo s; cmsTextFont := cmsTextFont s;
     extraTextFont := extraTextFont s; additionalInfoFont := additionalInfoFont s;
     cmsTextSize := cmsTextSize s; extraOverCmsTextSize := extraOverCmsTextSize s;
     lumiTextSize := lumiTextSize s; lumiTextOffset := lumiTextOffset s |}.

Definition set_lumi_str (s : CmsState) (lumi : string) : CmsState :=
  {| cms_lumi := lumi; cms_energy := cms_energy s; cmsText := cmsText s;
     extraText := extraText s; useCmsLogo := useCmsLogo s;
     additionalInfo := additionalInfo s; cmsTextFont := cmsTextFont s;
     extraTextFont := extraTextFont s; additionalInfoFont := additionalInfoFont s;
     cmsTextSize := cmsTextSize s; extraOverCmsTextSize := extraOverCmsTextSize s;
     lumiTextSize := lumiTextSize s; lumiTextOffset := lumiTextOffset s |}.

(** The fields [SetExtraText] writes: [extraText], [cmsText], [useCmsLogo]
    and [extraTextFont]. *)
Definition set_extra (s : CmsState) (extra cms logo : string) (font : Z)
    : CmsState :=
  {| cms_lumi := cms_lumi s; cms_energy := cms_energy s; cmsText := cms;
     extraText := extra; useCmsLogo := logo;
     additionalInfo := additionalInfo s; cmsTextFont := cmsTextFont s;
     extraTextFont := font; additionalInfoFont := additionalInfoFont s;
     cmsTextSize := cmsTextSize s; extraOverCmsTextSize := extraOverCmsTextSize s;
     lumiTextSize := lumiTextSize s; lumiTextOffset := lumiTextOffset s |}.

Definition energy_error : string :=
  "ERROR: Unsupported value of the energy... use manual setting of the cms_energy value".

(** Lines 176-189.  The result is the new state and what went to [std::cerr]. *)
Definition SetEnergy (energy : Q) (unit : string) (s : CmsState)
    : CmsState * list Event :=
  if Qeq_bool energy 0 then (set_energy_str s unit, [])
  else
    let '(prefix, err) :=
      if Qltb (Qabs (energy - 13)) 0.001 then ("13 ", [])
      else if Qltb (Qabs (energy - 13.6)) 0.001 then ("13.6 ", [])
      else ("???? ", [Cerr energy_error]) in
    (set_energy_str s (prefix ++ unit)%string, err).

(** [std::fixed << std::setprecision(p) << x]: [x] rounded to [p] decimals
    and written with exactly [p] digits after the point (none and no point
    when [p = 0]).  The C library rounds the exact (binary) value of the
    double to the nearest, an exact tie to the even neighbour (2.5 at
    precision 0 gives "2", 0.125 at precision 2 gives "0.12"); [x] is that
    exact value. *)
Definition digits (n : Z) : string :=
  NilZero.string_of_uint (N.to_uint (Z.to_N n)).

Fixpoint zeros (k : nat) : string :=
  match k with O => "" | S k' => String "0" (zeros k') end.

Definition fixed (p : nat) (x : Q) : string :=
  let sign := if Qltb x 0 then "-" else "" in
  let scale := (10 ^ Z.of_nat p)%Z in
  let y := Qabs x * inject_Z scale in
  let f := Qfloor y in
  let d := y - inject_Z f in
  let n := if Qltb d (1 # 2) then f
           else if Qltb (1 # 2) d then (f + 1)%Z
           else if Z.even f then f else (f + 1)%Z in
  let ip := digits (n / scale)%Z in
  let fp := digits (n mod scale)%Z in
  if Nat.eqb p 0 then (sign ++ ip)%string
  else (sign ++ ip ++ "." ++ zeros (p - String.length fp) ++ fp)%string.

Section Lumi.

(** [stream << lumi] with the stream's default formatting (iostream
    [%g]-style, six significant digits): left to the C++ library. *)
Variable stream_default : Q -> string.

(** Lines 192-213. *)
Definition SetLumi (lumi : Q) (unit run : string) (round_lumi : Z)
    (s : CmsState) : CmsState :=
  let c0 := if Nat.ltb 0 (String.length run) then run else "" in
  if Qle_bool 0 lumi then
    let c1 := if Nat.ltb 0 (String.length c0) then (c0 ++ ", ")%string else c0 in
    let str := if (0 <=? round_lumi)%Z && (round_lumi <? 3)%Z
               then fixed (Z.to_nat round_lumi) lumi
               else stream_default lumi in
    set_lumi_str s (c1 ++ str ++ " " ++ unit ++ "^{#minus1}")%string
  else set_lumi_str s c0.

End Lumi.

(** Lines 260-281. *)
Definition SetExtraText (text : string) (font : Z) (s : CmsState) : CmsState :=
  let extra :=
    if String.eqb text "p" then "Preliminary"
    else if String.eqb text "s" then "Simulation"
    else if String.eqb text "su" then "Supplementary"
    else if String.eqb text "wip" then "Work in progress"
    else if String.eqb text "pw" then "Private work (CMS data)"
    else text in
  let '(cms, logo) :=
    if contains "Private" extra then ("", "") else (cmsText s, useCmsLogo s) in
  set_extra s extra cms logo (if Z.eqb font 0 then extraTextFont s else font).

End Setters.

(** ** ROOT objects and the property setters (cmsstyle.C, lines 500-562) *)

Module Objects.

Open Scope Q_scope.

Record LineAttr := mkLine { fLineColor : Z; fLineStyle : Z; fLineWidth : Z }.
Record FillAttr := mkFill { fFillColor : Z; fFillStyle : Z }.
Record MarkerAttr := mkMarker { fMarkerColor : Z; fMarkerStyle : Z; fMarkerSize : Q }.

(** A [TObject*]: which of the attribute bases [TAttLine], [TAttFill],
    [TAttMarker] the dynamic type has ([None]: [dynamic_cast] yields
    [nullptr]). *)
Record TObj := mkObj {
  obj_line : option LineAttr;
  obj_fill : option FillAttr;
  obj_marker : option MarkerAttr
}.

(** A configuration map [std::map<std::string,Double_t>], in its iteration
    order (increasing keys). *)
Definition Confs := list (string * Q).

Definition with_line (o : TObj) (f : LineAttr -> LineAttr) : option TObj :=
  match obj_line o with
  | Some a => Some (mkObj (Some (f a)) (obj_fill o) (obj_marker o))
  | None => None   (* member call through a null pointer *)
  end.

Definition with_fill (o : TObj) (f : FillAttr -> FillAttr) : option TObj :=
  match obj_fill o with
  | Some a => Some (mkObj (obj_line o) (Some (f a)) (obj_marker o))
  | None => None
  end.

Definition with_marker (o : TObj) (f : MarkerAttr -> MarkerAttr) : option TObj :=
  match obj_marker o with
  | Some a => Some (mkObj (obj_line o) (obj_fill o) (Some (f a)))
  | None => None
  end.

Definition is_key (k a b : string) : bool := String.eqb k a || String.eqb k b.

(** [Int_t(v+0.5)] passed to a [short] parameter. *)
Definition round_short (v : Q) : Z := to_short (trunc (v + 0.5)).

(** One iteration of the loop of [setRootObjectProperties]; [None] is the
    crash of a member call on the [nullptr] of a failed [dynamic_cast]. *)
Definition set_property (o : TObj) (kv : string * Q) : option TObj :=
  let '(k, v) := kv in
  if is_key k "SetLineColor" "LineColor" then
    with_line o (fun a => mkLine (round_short v) (fLineStyle a) (fLineWidth a))
  else if is_key k "SetLineStyle" "LineStyle" then
    with_line o (fun a => mkLine (fLineColor a) (round_short v) (fLineWidth a))
  else if is_key k "SetLineWidth" "LineWidth" then
    with_line o (fun a => mkLine (fLineColor a) (fLineStyle a) (to_short (trunc v)))
  else if is_key k "SetFillColor" "FillColor" then
    with_fill o (fun a => mkFill (round_short v) (fFillStyle a))
  else if is_key k "SetFillStyle" "FillStyle" then
    with_fill o (fun a => mkFill (fFillColor a) (round_short v))
  else if is_key k "SetMarkerColor" "MarkerColor" then
    with_marker o (fun a => mkMarker (round_short v) (fMarkerStyle a) (fMarkerSize a))
  else if is_key k "SetMarkerSize" "MarkerSize" then
    with_marker o (fun a => mkMarker (fMarkerColor a) (fMarkerStyle a) v)
  else if is_key k "SetMarkerStyle" "MarkerStyle" then
    with_marker o (fun a => mkMarker (fMarkerColor a) (round_short v) (fMarkerSize a))
  else Some o.

Fixpoint setRootObjectProperties (o : TObj) (confs : Confs) : option TObj :=
  match confs with
  | [] => Some o
  | kv :: rest =>
      match set_property o kv with
      | Some o' => setRootObjectProperties o' rest
      | None => None
      end
  end.

(** Lines 548-562 ([option_] is the parameter [option]): the object after
    configuration and the option string given to [obj->Draw]; [None] if the
    configuration crashes. *)
Definition cmsObjectDraw (obj : TObj) (option_ : string) (confs : Confs)
    : option (TObj * string) :=
  match setRootObjectProperties obj confs with
  | None => None
  | Some obj' =>
      let prefix := if contains "SAME" option_ then option_
                    else ("SAME" ++ option_)%string in
      Some (obj', prefix)
  end.

(** A [THStack]: a [TNamed], with none of the attribute bases. *)
Definition a_THStack : TObj := mkObj None None None.

End Objects.

(** ** The statistics box (cmsstyle.C, lines 651-762) *)

Module Stats.

Import Objects.
Open Scope Q_scope.

(** A [TPaveStats]: a [TPave] (line and fill attributes) with its NDC corners,
    its text size and the number of lines it holds. *)
Record TPaveStats := mkStats {
  st_obj : TObj;
  X1NDC : Q; Y1NDC : Q; X2NDC : Q; Y2NDC : Q;
  TextSize : Q;
  nLines : nat
}.

(** A pad: its margins and the primitive named ["stats"], if any.  The
    [UpdatePad] refreshes are not modelled: they do not move the box. *)
Record PadS := mkPadS {
  pad_geom : Pad;
  stats : option TPaveStats
}.

(** Lines 676-688. *)
Definition changeStatsBox_coords (pstats : TPaveStats) (x1pos y1pos x2pos y2pos : Q)
    (confs : Confs) : option TPaveStats :=
  match setRootObjectProperties (st_obj pstats) confs with
  | None => None
  | Some o =>
      Some {| st_obj := o;
              X1NDC := if Qltb (-998) x1pos then x1pos else X1NDC pstats;
              Y1NDC := if Qltb (-998) y1pos then y1pos else Y1NDC pstats;
              X2NDC := if Qltb (-998) x2pos then x2pos else X2NDC pstats;
              Y2NDC := if Qltb (-998) y2pos then y2pos else Y2NDC pstats;
              TextSize := TextSize pstats;
              nLines := nLines pstats |}
  end.

(** The double-quote character. *)
Definition dq : string := String (ascii_of_nat 34) EmptyString.

Definition no_stats_error : string :=
  "ERROR: Trying to change the StatsBox when it has not been enabled... activate it with SetOptStat (and use "
  ++ dq ++ "SAMES" ++ dq ++ " or equivalent)".

Definition invalid_code_error (ipos : string) : string :=
  "ERROR: Invalid code provided to position the statistics box: " ++ ipos.

(** Lines 691-762.  [Some (returned pointer, pad after, std::cerr)];
    [None] is a crash inside [setRootObjectProperties]. *)
Definition changeStatsBox (pcanv : PadS) (ipos_x1 : string) (xscale yscale : Q)
    (confs : Confs) : option (option TPaveStats * PadS * list Event) :=
  match stats pcanv with
  | None => Some (None, pcanv, [Cerr no_stats_error])
  | Some stbox =>
      let g := pad_geom pcanv in
      let a := lower ipos_x1 in
      let textsize := if Qeq_bool (TextSize stbox) 0 then 0
                      else 6 * (TextSize stbox - 0.025) in
      let xsize := (1 - GetRightMargin g - GetLeftMargin g) * xscale in
      let ysize := (1 - GetBottomMargin g - GetTopMargin g) * yscale in
      let yfactor := 0.05 + 0.05 * inject_Z (Z.of_nat (nLines stbox)) in
      let corners :=
        if String.eqb a "tr" then
          Some (1 - GetRightMargin g - xsize * 0.33 - textsize,
                1 - GetTopMargin g - ysize * yfactor - textsize,
                1 - GetRightMargin g - xsize * 0.03,
                1 - GetTopMargin g - ysize * 0.03)
        else if String.eqb a "tl" then
          Some (GetLeftMargin g + xsize * 0.03,
                1 - GetTopMargin g - ysize * yfactor - textsize,
                GetLeftMargin g + xsize * 0.33 + textsize,
                1 - GetTopMargin g - ysize * 0.03)
        else if String.eqb a "bl" then
          Some (GetLeftMargin g + xsize * 0.03,
                GetBottomMargin g + ysize * 0.03,
                GetLeftMargin g + xsize * 0.33 + textsize,
                GetBottomMargin g + ysize * yfactor + textsize)
        else if String.eqb a "br" then
          Some (1 - GetRightMargin g - xsize * 0.33 - textsize,
                GetBottomMargin g + ysize * 0.03,
                1 - GetRightMargin g - xsize * 0.03,
                GetBottomMargin g + ysize * yfactor + textsize)
        else None in
      match corners with
      | None => Some (Some stbox, pcanv, [Cerr (invalid_code_error ipos_x1)])
      | Some (x1, y1, x2, y2) =>
          match changeStatsBox_coords stbox x1 y1 x2 y2 confs with
          | None => None
          | Some b' => Some (Some b', mkPadS g (Some b'), [])
          end
      end
  end.

End Stats.

(** ** buildTHStack (cmsstyle.C, lines 863-917) *)

Module Stack.

Import Objects.
Open Scope Q_scope.

(** A [TH1]: it has all three attribute bases. *)
Record TH1 := mkTH1 { h_line : LineAttr; h_fill : FillAttr; h_marker : MarkerAttr }.

(** The [THStack] built: its option string and the histograms added, in
    order. *)
Record THStack := mkTHStack { hs_opt : string; hs_hists : list TH1 }.

(** One iteration of the inner loop of lines 896-907 for histogram number
    [ihst].  The colors are read with [colors[ihst]]; an index out of the
    vector is an out-of-bounds read, [None]. *)
Definition hist_property (colors : list Z) (ihst : nat) (h : TH1) (kv : string * Q)
    : option TH1 :=
  let '(k, v) := kv in
  let ln := h_line h in let fl := h_fill h in let mk := h_marker h in
  if is_key k "SetLineColor" "LineColor" then
    match nth_error colors ihst with
    | Some c => Some (mkTH1 (mkLine (to_short c) (fLineStyle ln) (fLineWidth ln)) fl mk)
    | None => None
    end
  else if is_key k "SetFillColor" "FillColor" then
    match nth_error colors ihst with
    | Some c => Some (mkTH1 ln (mkFill (to_short c) (fFillStyle fl)) mk)
    | None => None
    end
  else if is_key k "SetMarkerColor" "MarkerColor" then
    match nth_error colors ihst with
    | Some c => Some (mkTH1 ln fl (mkMarker (to_short c) (fMarkerStyle mk) (fMarkerSize mk)))
    | None => None
    end
  else if is_key k "SetLineStyle" "LineStyle" then
    Some (mkTH1 (mkLine (fLineColor ln) (round_short v) (fLineWidth ln)) fl mk)
  else if is_key k "SetLineWidth" "LineWidth" then
    Some (mkTH1 (mkLine (fLineColor ln) (fLineStyle ln) (to_short (trunc v))) fl mk)
  else if is_key k "SetFillStyle" "FillStyle" then
    Some (mkTH1 ln (mkFill (fFillColor fl) (round_short v)) mk)
  else if is_key k "SetMarkerSize" "MarkerSize" then
    Some (mkTH1 ln fl (mkMarker (fMarkerColor mk) (fMarkerStyle mk) v))
  else if is_key k "SetMarkerStyle" "MarkerStyle" then
    (* the source calls SetMarkerSize here *)
    Some (mkTH1 ln fl (mkMarker (fMarkerColor mk) (fMarkerStyle mk) v))
  else Some h.

Fixpoint configure (colors : list Z) (ihst : nat) (h : TH1) (confs : Confs)
    : option TH1 :=
  match confs with
  | [] => Some h
  | kv :: rest =>
      match hist_property colors ihst h kv with
      | Some h' => configure colors ihst h' rest
      | None => None
      end
  end.

Section Build.

(** [getPettroffColorSet] is declared in [colorsets.H], not under src/;
    the spec describes it as the smallest of the 6/8/10-color curated sets
    that fits the requested number of colors.  Its result is not read by
    [buildTHStack], so it is kept abstract here. *)
Variable getPettroffColorSet : nat -> list Z.

(** The loop of lines 889-912: [ihst] counts the histograms. *)
Fixpoint add_all (colors : list Z) (confs : Confs) (ihst : nat) (histos : list TH1)
    : option (list TH1) :=
  match histos with
  | [] => Some []
  | xhst :: rest =>
      match configure colors ihst xhst confs with
      | None => None
      | Some h' =>
          match add_all colors confs (S ihst) rest with
          | None => None
          | Some hs => Some (h' :: hs)
          end
      end
  end.

Definition buildTHStack (histos : list TH1) (colors : list Z) (stackopt : string)
    (confs : Confs) : option THStack :=
  let x := if Nat.eqb (String.length stackopt) 0 then "STACK" else stackopt in
  let colorset :=
    if Nat.eqb (List.length colors) 0 && Nat.ltb 0 (List.length histos)
    then getPettroffColorSet (List.length histos) else colors in
  let _ := colorset in
  match add_all colors confs 0 histos with
  | None => None
  | Some hs => Some (mkTHStack x hs)
  end.

End Build.

End Stack.

(** ** The alternative 2D palette (cmsstyle.C, lines 784-826) *)

Module Palette.

Open Scope Q_scope.

Section Palette.

(** The color table of the ROOT session and [TColor::CreateGradientColorTable]
    (an engine routine): given the number of stops, the stops, the red,
    green and blue values, the number of colors and alpha, it returns the
    index of the first color created and the new color table. *)
Variable ColorTable : Type.
Variable CreateGradientColorTable :
  nat -> list Q -> list Q -> list Q -> list Q -> Z -> Q -> ColorTable -> Z * ColorTable.

Record PState := mkPState {
  usingPalette2D : list Z;
  colors : ColorTable;
  cmsStyle : option Z;          (* the style handle, if set *)
  gStyle : Z;
  palette_of : Z -> list Z;     (* the palette installed on each style *)
  contour_of : Z -> nat         (* the number of contours of each 2D histogram *)
}.

Definition red_values : list Q := [0.00; 0.00; 1.00; 0.70].
Definition green_values : list Q := [0.30; 0.50; 0.70; 0.00].
Definition blue_values : list Q := [0.50; 0.40; 0.20; 0.15].
Definition length_values : list Q := [0.00; 0.15; 0.70; 1.00].
Definition num_colors : Z := 200.

(** Lines 784-809. *)
Definition CreateAlternativePalette (alpha : Q) (ps : PState) : PState :=
  let '(color_table, ct) :=
    CreateGradientColorTable 4 length_values red_values green_values blue_values
      num_colors alpha (colors ps) in
  {| usingPalette2D := map (fun i => (color_table + Z.of_nat i)%Z)
                           (seq 0 (Z.to_nat num_colors));
     colors := ct; cmsStyle := cmsStyle ps; gStyle := gStyle ps;
     palette_of := palette_of ps; contour_of := contour_of ps |}.

(** Lines 812-826: [hist] and [style] are handles, [None] for [nullptr]. *)
Definition SetAlternative2DColor (hist style : option Z) (alpha : Q) (ps : PState)
    : PState :=
  let ps1 := if Nat.eqb (List.length (usingPalette2D ps)) 0
             then CreateAlternativePalette alpha ps else ps in
  let st := match style with
            | Some st => st
            | None => match cmsStyle ps1 with None => gStyle ps1 | Some c => c end
            end in
  let pal := usingPalette2D ps1 in
  {| usingPalette2D := pal; colors := colors ps1; cmsStyle := cmsStyle ps1;
     gStyle := gStyle ps1;
     palette_of := fun k => if Z.eqb k st then pal else palette_of ps1 k;
     contour_of := fun k => match hist with
                            | Some h => if Z.eqb k h then List.length pal else contour_of ps1 k
                            | None => contour_of ps1 k
                            end |}.

End Palette.

End Palette.

Module Ex2.

Open Scope Q_scope.
Import Objects Stack.

(** [Ex.st] with one additional info line. *)
Definition st_info : CmsState := {|
  cms_lumi := cms_lumi Ex.st; cms_energy := cms_energy Ex.st;
  cmsText := cmsText Ex.st; extraText := extraText Ex.st;
  useCmsLogo := useCmsLogo Ex.st; additionalInfo := ["Signal region"];
  cmsTextFont := cmsTextFont Ex.st; extraTextFont := extraTextFont Ex.st;
  additionalInfoFont := additionalInfoFont Ex.st;
  cmsTextSize := cmsTextSize Ex.st;
  extraOverCmsTextSize := extraOverCmsTextSize Ex.st;
  lumiTextSize := lumiTextSize Ex.st; lumiTextOffset := lumiTextOffset Ex.st |}.

(** A freshly booked histogram. *)
Definition hist : TH1 := mkTH1 (mkLine 1 1 1) (mkFill 0 1001) (mkMarker 1 20 1).

End Ex2.

(** ** More of the caption state (cmsstyle.C, lines 163-257) *)

Module Captions.

Import Setters.
Open Scope Q_scope.

(** Lines 163-173. *)
Definition ResetCmsDescriptors (s : CmsState) : CmsState :=
  {| cms_lumi := "Run 2, 138 fb^{#minus1}"; cms_energy := "13 TeV";
     cmsText := "CMS"; extraText := "Preliminary"; useCmsLogo := useCmsLogo s;
     additionalInfo := []; cmsTextFont := cmsTextFont s;
     extraTextFont := extraTextFont s; additionalInfoFont := additionalInfoFont s;
     cmsTextSize := cmsTextSize s; extraOverCmsTextSize := extraOverCmsTextSize s;
     lumiTextSize := lumiTextSize s; lumiTextOffset := lumiTextOffset s |}.

Definition set_logo (s : CmsState) (logo : string) : CmsState :=
  {| cms_lumi := cms_lumi s; cms_energy := cms_energy s; cmsText := cmsText s;
     extraText := extraText s; useCmsLogo := logo;
     additionalInfo := additionalInfo s; cmsTextFont := cmsTextFont s;
     extraTextFont := extraTextFont s; additionalInfoFont := additionalInfoFont s;
     cmsTextSize := cmsTextSize s; extraOverCmsTextSize := extraOverCmsTextSize s;
     lumiTextSize := lumiTextSize s; lumiTextOffset := lumiTextOffset s |}.

Section Files.

(** The file system as [fopen(path,"r")] sees it, and the value of the
    environment variable [CMSSTYLE_DIR] ([None]: not defined). *)
Variable readable : string -> bool.
Variable CMSSTYLE_DIR : option string.

Definition logo_error (filename : string) : string :=
  "ERROR: Indicated file for CMS Logo: " ++ filename ++ " could not be found!".

(** Lines 226-257. *)
Definition SetCmsLogoFilename (filename : string) (s : CmsState)
    : CmsState * list Event :=
  if Nat.eqb (String.length filename) 0 then (set_logo s "", [])
  else if readable filename then (set_logo s filename, [])
  else
    let logo :=
      match CMSSTYLE_DIR with
      | None => ""
      | Some x =>
          let p := (x ++ "/" ++ filename)%string in
          if readable p then p else ""
      end in
    (set_logo s logo,
     if Nat.eqb (String.length logo) 0 then [Cerr (logo_error filename)] else []).



End Files.

End Captions.

(** ** cmsReturnMaxY (cmsstyle.C, lines 288-328) *)

Module MaxY.

Open Scope Q_scope.

(** The objects the routine distinguishes.  For a [TH1], the content and
    the error of its maximum bin (as ROOT's [GetMaximumBin] finds it); for a
    [THStack], its [GetMaximum()]; for a [TGraph], its y values, its
    [GetEY()] array ([None]: the [nullptr] a plain [TGraph] returns) and the
    values of [GetErrorYhigh(i)]. *)
Inductive PlotObj :=
| ObjTH1 (maxbin_content maxbin_error : Q)
| ObjTHStack (maximum : Q)
| ObjTGraph (y : list Q) (ey : option (list Q)) (eyhigh : list Q)
| ObjOther.

Definition maxY_error : string :=
  "ERROR: Trying to get a maximum or an unsupported type on cmsstyle::cmsReturnMaxY".

(** [std::max(a,b)]: [(a < b) ? b : a]. *)
Definition std_max (a b : Q) : Q := if Qltb a b then b else a.

(** The [while (i>0)] loop over the points of a graph, from the last one;
    [None] when [ey] is dereferenced as [nullptr]. *)
Fixpoint graph_loop (y : list Q) (ey : option (list Q)) (eyhigh : list Q)
    (i : nat) (maxval : Q) : option Q :=
  match i with
  | O => Some maxval
  | S i' =>
      match ey with
      | None => None
      | Some eys =>
          let ivalue := nth i' y 0 + std_max (nth i' eys 0) (nth i' eyhigh 0) in
          graph_loop y ey eyhigh i' (if Qltb maxval ivalue then ivalue else maxval)
      end
  end.

Definition obj_step (maxval : Q) (o : PlotObj) : option (Q * list Event) :=
  match o with
  | ObjTH1 c e =>
      let value := c + e in
      Some (if Qltb maxval value then value else maxval, [])
  | ObjTHStack m => Some (if Qltb maxval m then m else maxval, [])
  | ObjTGraph y ey eyh =>
      match graph_loop y ey eyh (List.length y) maxval with
      | Some v => Some (v, [])
      | None => None
      end
  | ObjOther => Some (maxval, [Cerr maxY_error])
  end.

Fixpoint maxY_loop (maxval : Q) (objs : list PlotObj) : option (Q * list Event) :=
  match objs with
  | [] => Some (maxval, [])
  | o :: rest =>
      match obj_step maxval o with
      | None => None
      | Some (m, err) =>
          match maxY_loop m rest with
          | None => None
          | Some (m', err') => Some (m', (err ++ err')%list)
          end
      end
  end.

Definition cmsReturnMaxY (objs : list PlotObj) : option (Q * list Event) :=
  maxY_loop 0 objs.

(** The values a supported object contributes (for a graph with its error
    array). *)
Definition obj_values (o : PlotObj) : list Q :=
  match o with
  | ObjTH1 c e => [c + e]
  | ObjTHStack m => [m]
  | ObjTGraph y (Some eys) eyh =>
      map (fun i => nth i y 0 + std_max (nth i eys 0) (nth i eyh 0)) (seq 0 (List.length y))
  | ObjTGraph _ None _ => []
  | ObjOther => []
  end.

End MaxY.

(** ** The canvas geometry of cmsCanvas (cmsstyle.C, lines 352-385) *)

Module Canvas.

Open Scope Q_scope.

(** [L] in pixels after the y-title adjustment of lines 362-371. *)
Definition left_pixels (square : bool) (yTitOffset : Q) : Q :=
  let H := 600 in
  let L := 0.145 * H in
  let y_offset := if Qltb yTitOffset (-998)
                  then (if square then 1.2 else 0.78) else yTitOffset in
  if Qltb y_offset 1.5 then L + (y_offset * 50 - 60)
  else if Qltb y_offset 1.8 then L + ((y_offset - 1.4) * 35 + 25)
  else L.

(** The margins [(left, right, top, bottom)] set on the canvas. *)
Definition cmsCanvas_margins (square : bool) (extraSpace : Q) (with_z_axis : bool)
    (yTitOffset : Q) : Q * Q * Q * Q :=
  let H := 600 in
  let W := if square then 600 else 800 in
  let T := 0.07 * H in
  let B := 0.125 * H in
  let R := 0.05 * H in
  (left_pixels square yTitOffset / W + extraSpace,
   if with_z_axis then B / W + 0.03 else R / W,
   T / H,
   B / H + 0.02).

End Canvas.

(** ** More object routines (cmsstyle.C, lines 520-545, 829-860, 920-945) *)

Module Objects2.

Import Objects.
Open Scope Q_scope.

(** One iteration of the first loop of [copyRootObjectProperties]. *)
Definition copy_property (o src : TObj) (p : string) : option TObj :=
  if String.eqb p "LineColor" then
    match obj_line src with
    | Some a => with_line o (fun b => mkLine (fLineColor a) (fLineStyle b) (fLineWidth b))
    | None => None
    end
  else if String.eqb p "LineStyle" then
    match obj_line src with
    | Some a => with_line o (fun b => mkLine (fLineColor b) (fLineStyle a) (fLineWidth b))
    | None => None
    end
  else if String.eqb p "LineWidth" then
    match obj_line src with
    | Some a => with_line o (fun b => mkLine (fLineColor b) (fLineStyle b) (fLineWidth a))
    | None => None
    end
  else if String.eqb p "FillColor" then
    match obj_fill src with
    | Some a => with_fill o (fun b => mkFill (fFillColor a) (fFillStyle b))
    | None => None
    end
  else if String.eqb p "FillStyle" then
    match obj_fill src with
    | Some a => with_fill o (fun b => mkFill (fFillColor b) (fFillStyle a))
    | None => None
    end
  else if String.eqb p "MarkerColor" then
    match obj_marker src with
    | Some a => with_marker o (fun b => mkMarker (fMarkerColor a) (fMarkerStyle b) (fMarkerSize b))
    | None => None
    end
  else if String.eqb p "MarkerSize" then
    match obj_marker src with
    | Some a => with_marker o (fun b => mkMarker (fMarkerColor b) (fMarkerStyle b) (fMarkerSize a))
    | None => None
    end
  else if String.eqb p "MarkerStyle" then
    match obj_marker src with
    | Some a => with_marker o (fun b => mkMarker (fMarkerColor b) (fMarkerStyle a) (fMarkerSize b))
    | None => None
    end
  else Some o.

Fixpoint copy_loop (o src : TObj) (proplist : list string) : option TObj :=
  match proplist with
  | [] => Some o
  | p :: rest =>
      match copy_property o src p with
      | Some o' => copy_loop o' src rest
      | None => None
      end
  end.

(** Lines 520-545. *)
Definition copyRootObjectProperties (o src : TObj) (proplist : list string)
    (confs : Confs) : option TObj :=
  match copy_loop o src proplist with
  | None => None
  | Some o' =>
      if Nat.ltb 0 (List.length confs) then setRootObjectProperties o' confs
      else Some o'
  end.

(** The value of a property of an object, [None] when the object lacks the
    attribute base. *)
Definition get_prop (p : string) (o : TObj) : option Q :=
  if String.eqb p "LineColor" then option_map (fun a => inject_Z (fLineColor a)) (obj_line o)
  else if String.eqb p "LineStyle" then option_map (fun a => inject_Z (fLineStyle a)) (obj_line o)
  else if String.eqb p "LineWidth" then option_map (fun a => inject_Z (fLineWidth a)) (obj_line o)
  else if String.eqb p "FillColor" then option_map (fun a => inject_Z (fFillColor a)) (obj_fill o)
  else if String.eqb p "FillStyle" then option_map (fun a => inject_Z (fFillStyle a)) (obj_fill o)
  else if String.eqb p "MarkerColor" then option_map (fun a => inject_Z (fMarkerColor a)) (obj_marker o)
  else if String.eqb p "MarkerSize" then option_map fMarkerSize (obj_marker o)
  else if String.eqb p "MarkerStyle" then option_map (fun a => inject_Z (fMarkerStyle a)) (obj_marker o)
  else None.














End Objects2.

Module Stack2.

Import Objects Stack.

Section Draw.

Variable getPettroffColorSet : nat -> list Z.
(** The default [confs] argument of [cmsObjectDraw] (declared in
    cmsstyle.H, not under src/). *)
Variable default_confs : Confs.

(** Lines 920-945: the stack built, the legend entries added (label and
    option, in the order they are added) and the option the stack is drawn
    with; [None] if a step crashes. *)
Definition buildAndDrawTHStack (objs : list (TH1 * (string * string)))
    (reverseleg : bool) (colors : list Z) (stackopt : string) (confs : Confs)
    : option (THStack * list (string * string) * string) :=
  let histos := map fst objs in
  match buildTHStack getPettroffColorSet histos colors stackopt confs with
  | None => None
  | Some hs =>
      let entries := if reverseleg then rev (map snd objs) else map snd objs in
      match cmsObjectDraw a_THStack "" default_confs with
      | None => None
      | Some (_, opt) => Some (hs, entries, opt)
      end
  end.

End Draw.

End Stack2.

(** ** Predicates used to state properties of the routines *)

Module Predicates.

Import Objects Stack MaxY.
Open Scope Q_scope.

(** The two warnings [CMS_lumi] prints out of the frame. *)
Definition logo_warning : string :=
  "WARNING: Usage of (graphical) CMS-logo outside the frame is not currently supported!".

Definition info_warning : string :=
  "WARNING: Additional Info for the CMS-info part outside the frame is not currently supported!".

(** The texts drawn, in drawing order. *)
Fixpoint drawn_texts (evs : list Event) : list string :=
  match evs with
  | [] => []
  | DrawText txt _ _ _ _ _ :: rest => txt :: drawn_texts rest
  | _ :: rest => drawn_texts rest
  end.

(** The value a graph point contributes in [cmsReturnMaxY]. *)
Definition point_value (y eys eyh : list Q) (k : nat) : Q :=
  nth k y 0 + std_max (nth k eys 0) (nth k eyh 0).

Definition unsupported_errors (objs : list PlotObj) : list Event :=
  flat_map (fun o => match o with ObjOther => [Cerr maxY_error] | _ => [] end) objs.

Definition bad_graph (o : PlotObj) : bool :=
  match o with
  | ObjTGraph (_ :: _) None _ => true
  | _ => false
  end.

(** Which attribute base a key of [setRootObjectProperties] addresses: 1
    line, 2 fill, 3 marker, 0 none (the key is ignored). *)
Definition key_base (k : string) : nat :=
  (if is_key k "SetLineColor" "LineColor" then 1
   else if is_key k "SetLineStyle" "LineStyle" then 1
   else if is_key k "SetLineWidth" "LineWidth" then 1
   else if is_key k "SetFillColor" "FillColor" then 2
   else if is_key k "SetFillStyle" "FillStyle" then 2
   else if is_key k "SetMarkerColor" "MarkerColor" then 3
   else if is_key k "SetMarkerSize" "MarkerSize" then 3
   else if is_key k "SetMarkerStyle" "MarkerStyle" then 3
   else 0)%nat.

Definition has_base (o : TObj) (n : nat) : bool :=
  match n with
  | 1%nat => match obj_line o with Some _ => true | None => false end
  | 2%nat => match obj_fill o with Some _ => true | None => false end
  | 3%nat => match obj_marker o with Some _ => true | None => false end
  | _ => true
  end.

Definition full (o : TObj) : Prop :=
  obj_line o <> None /\ obj_fill o <> None /\ obj_marker o <> None.

Definition corner_codes : list string := ["tr"; "tl"; "bl"; "br"].

(** The keys that make [buildTHStack] read [colors[ihst]]. *)
Definition color_key (k : string) : bool :=
  is_key k "SetLineColor" "LineColor" || is_key k "SetFillColor" "FillColor" ||
  is_key k "SetMarkerColor" "MarkerColor".

End Predicates.

(** ** More example inputs *)
Module Ex3.

Import Objects Stats.
Open Scope Q_scope.

(** A graphical logo set on the example state. *)
Definition st_logo : CmsState := Captions.set_logo Ex.st "CMS-BW-label.png".

(** A statistics box of three lines in the top-right corner. *)
Definition stbox : TPaveStats :=
  mkStats (mkObj (Some (mkLine 1 1 1)) (Some (mkFill 0 1001)) None) 0.7 0.7 0.9 0.9 0 3.

Definition pcanv : PadS := mkPadS Ex.pad (Some stbox).

Definition obj_full : TObj :=
  mkObj (Some (mkLine 1 1 1)) (Some (mkFill 0 1001)) (Some (mkMarker 1 20 1)).

Definition src_full : TObj :=
  mkObj (Some (mkLine 2 2 3)) (Some (mkFill 4 3004)) (Some (mkMarker 5 21 1.5)).

End Ex3.

(** * Theorems *)

Module LumiFacts.

Import Lumi.
Open Scope Q_scope.

Lemma length_eqb_0 (x : string) : Nat.eqb (String.length x) 0 = String.eqb x "".
Proof. destruct x; reflexivity. Qed.

Lemma length_ltb_0 (x : string) : Nat.ltb 0 (String.length x) = negb (String.eqb x "").
Proof. destruct x; reflexivity. Qed.

(** C1: on every valid position code the decoding step gives
    [outOfFrame = (code/10 == 0)], true exactly for codes below 10,
    [alignX = max(code/10, 1)] in {1,2,3}, [alignY] 1 for code 0 and 3
    otherwise, and [align = 10*alignX + alignY]. *)
Theorem decode_valid_codes (code : Z) (Hc : In code SpecRef.valid_codes) :
  let '(outOfFrame, alignX, alignY, align) := decode code in
  outOfFrame = Z.eqb (Z.quot code 10) 0 /\
  outOfFrame = Z.ltb code 10 /\
  alignX = Z.max (Z.quot code 10) 1 /\
  In alignX [1; 2; 3]%Z /\
  alignY = (if Z.eqb code 0 then 1 else 3)%Z /\
  align = (10 * alignX + alignY)%Z.
Proof.
  simpl in Hc.
  repeat (destruct Hc as [<- | Hc]; [vm_compute; intuition discriminate |]).
  contradiction.
Qed.

(** Witness of [decode_valid_codes] at code 12. *)
Lemma decode_valid_codes_witness :
  In 12%Z SpecRef.valid_codes /\
  (let '(outOfFrame, alignX, alignY, align) := decode 12 in
   outOfFrame = Z.eqb (Z.quot 12 10) 0 /\
   outOfFrame = Z.ltb 12 10 /\
   alignX = Z.max (Z.quot 12 10) 1 /\
   In alignX [1; 2; 3]%Z /\
   alignY = (if Z.eqb 12 0 then 1 else 3)%Z /\
   align = (10 * alignX + alignY)%Z).
Proof.
  split; [simpl; tauto |].
  apply (decode_valid_codes 12%Z). simpl; tauto.
Defined.

(** The in-frame text case: after the luminosity caption, the wordmark,
    the extra text and the additional lines. *)
Lemma CMS_lumi_inframe_text (s : CmsState) (ppad : Pad) (code : Z) (sc : Q) :
  Z.quot code 10 <> 0%Z -> useCmsLogo s = "" ->
  let l := GetLeftMargin ppad in let t := GetTopMargin ppad in
  let r := GetRightMargin ppad in let b := GetBottomMargin ppad in
  let X := posX0 code l r in
  let al := (10 * Z.max (Z.quot code 10) 1 + 3)%Z in
  let d := relExtraDY * cmsTextSize s * t in
  let Y0 := posY0 t b in
  let Y1 := if String.eqb (cmsText s) "" then Y0 else Y0 - d in
  let base := if String.eqb (extraText s) "" then Y1 + d else Y1 in
  tl (CMS_lumi s ppad code sc) =
    (if String.eqb (cmsText s) "" then []
     else [DrawText (cmsText s) X Y0 (cmsTextFont s) al (cmsTextSize s * t)])
    ++ (if String.eqb (extraText s) "" then []
        else [DrawText (extraText s) X Y1 (extraTextFont s) al
                (extraOverCmsTextSize s * cmsTextSize s * t)])
    ++ additional_lines s X base t al 0 (additionalInfo s).
Proof.
  intros Hq Hlogo.
  assert (H0 : Z.eqb code 0 = false).
  { apply Z.eqb_neq. intros ->. apply Hq. reflexivity. }
  unfold CMS_lumi, decode.
  rewrite (proj2 (Z.eqb_neq _ _) Hq), H0.
  cbn zeta iota beta.
  simpl tl. rewrite length_ltb_0, Hlogo. simpl negb. cbn iota.
  rewrite !length_eqb_0.
  destruct (String.eqb (cmsText s) ""), (String.eqb (extraText s) ""); reflexivity.
Qed.



Lemma additional_lines_map (s : CmsState) (X Y t : Q) (al : Z) (infos : list string) :
  forall k,
  additional_lines s X Y t al k infos =
  map (fun '(i, info) =>
         DrawText info X
           (Y - 0.004 - (relExtraDY * extraOverCmsTextSize s * cmsTextSize s * t / 2 + 0.02)
                        * inject_Z (Z.of_nat (S i)))
           (additionalInfoFont s) al (extraOverCmsTextSize s * cmsTextSize s * t))
      (combine (seq k (List.length infos)) infos).
Proof.
  induction infos as [| info rest IH]; intros k; [reflexivity |].
  simpl. f_equal. apply IH.
Qed.







(** C3 (counterexample): code 11, wordmark, extra text and one additional
    info line: the info line is not [1.2*cmsTextSize*t] below the extra
    text. *)
Lemma stacked_lines_counterexample :
  match nth_error (CMS_lumi Ex2.st_info Ex.pad 11 1) 2,
        nth_error (CMS_lumi Ex2.st_info Ex.pad 11 1) 3 with
  | Some (DrawText txt2 _ y2 _ _ _), Some (DrawText txt3 _ y3 _ _ _) =>
      txt2 = "Preliminary" /\ txt3 = "Signal region" /\
      ~ (y3 == y2 - 1.2 * cmsTextSize Ex2.st_info * GetTopMargin Ex.pad)
  | _, _ => False
  end.
Proof.
  vm_compute. split; [reflexivity | split; [reflexivity | intro H; discriminate H]].
Qed.

(** C3 (amended): in frame with no graphical logo, after the luminosity
    caption CMS_lumi draws the wordmark (if non-empty) at
    [Y0 = 1-t-0.035*(1-t-b)], the extra text (if non-empty) at [Y1], which is
    [Y0 - 1.2*cmsTextSize*t] when a wordmark was drawn and [Y0] otherwise,
    and the additional info line number [i] (from 0) at
    [base - 0.004 - (1.2*extraOverCmsTextSize*cmsTextSize*t/2 + 0.02)*(i+1)],
    where [base] is [Y1] if the extra text is non-empty and
    [Y1 + 1.2*cmsTextSize*t] otherwise; all at the same X and alignment. *)
Theorem inframe_text_stack (s : CmsState) (ppad : Pad) (code : Z) (sc : Q)
    (Hq : Z.quot code 10 <> 0%Z) (Hlogo : useCmsLogo s = "") :
  let l := GetLeftMargin ppad in let t := GetTopMargin ppad in
  let r := GetRightMargin ppad in let b := GetBottomMargin ppad in
  let X := posX0 code l r in
  let al := (10 * Z.max (Z.quot code 10) 1 + 3)%Z in
  let d := 1.2 * cmsTextSize s * t in
  let Y0 := 1 - t - 0.035 * (1 - t - b) in
  let Y1 := if String.eqb (cmsText s) "" then Y0 else Y0 - d in
  let base := if String.eqb (extraText s) "" then Y1 + d else Y1 in
  let sz := extraOverCmsTextSize s * cmsTextSize s * t in
  tl (CMS_lumi s ppad code sc) =
    (if String.eqb (cmsText s) "" then []
     else [DrawText (cmsText s) X Y0 (cmsTextFont s) al (cmsTextSize s * t)])
    ++ (if String.eqb (extraText s) "" then []
        else [DrawText (extraText s) X Y1 (extraTextFont s) al sz])
    ++ map (fun '(i, info) =>
              DrawText info X
                (base - 0.004 - (1.2 * extraOverCmsTextSize s * cmsTextSize s * t / 2 + 0.02)
                                * inject_Z (Z.of_nat (S i)))
                (additionalInfoFont s) al sz)
           (combine (seq 0 (List.length (additionalInfo s))) (additionalInfo s)).
Proof.
  pose proof (CMS_lumi_inframe_text s ppad code sc Hq Hlogo) as Ht.
  cbv zeta in Ht |- *. rewrite Ht, additional_lines_map. reflexivity.
Qed.

(** Witness of [inframe_text_stack] at code 11 on [Ex2.st_info]. *)
Lemma inframe_text_stack_witness :
  Z.quot 11 10 <> 0%Z /\ useCmsLogo Ex2.st_info = "" /\
  tl (CMS_lumi Ex2.st_info Ex.pad 11 1) =
  [DrawText "CMS" (posX0 11 0.1 0.1) (1 - 0.1 - 0.035 * (1 - 0.1 - 0.1)) 61 13 (0.75 * 0.1);
   DrawText "Preliminary" (posX0 11 0.1 0.1)
     (1 - 0.1 - 0.035 * (1 - 0.1 - 0.1) - 1.2 * 0.75 * 0.1) 52 13 (0.76 * 0.75 * 0.1);
   DrawText "Signal region" (posX0 11 0.1 0.1)
     (1 - 0.1 - 0.035 * (1 - 0.1 - 0.1) - 1.2 * 0.75 * 0.1 - 0.004
      - (1.2 * 0.76 * 0.75 * 0.1 / 2 + 0.02) * inject_Z (Z.of_nat 1)) 42 13 (0.76 * 0.75 * 0.1)].
Proof.
  assert (Hq : Z.quot 11 10 <> 0%Z) by discriminate.
  assert (Hl : useCmsLogo Ex2.st_info = "") by reflexivity.
  split; [exact Hq | split; [exact Hl |]].
  rewrite (inframe_text_stack Ex2.st_info Ex.pad 11 1 Hq Hl). reflexivity.
Defined.

End LumiFacts.

Module SetterFacts.

Import Setters.
Open Scope Q_scope.

Lemma Qltb_iff (x y : Q) : Qltb x y = true <-> x < y.
Proof.
  unfold Qltb. rewrite Bool.negb_true_iff. split.
  - intros E. apply Qnot_le_lt. intros H. apply Qle_bool_iff in H. congruence.
  - intros H. destruct (Qle_bool y x) eqn:E; [| reflexivity].
    apply Qle_bool_iff in E. exfalso. exact (Qlt_not_le _ _ H E).
Qed.

Lemma Qltb_false (x y : Q) : ~ x < y -> Qltb x y = false.
Proof.
  intros H. destruct (Qltb x y) eqn:E; [| reflexivity].
  apply Qltb_iff in E. contradiction.
Qed.

(** C4: the five shorthands expand to their phrases ("pw" to
    "Private work (CMS data)"); when the resolved text contains "Private"
    the wordmark and the logo reference are cleared, and otherwise both are
    left unchanged. *)
Theorem SetExtraText_spec (text : string) (font : Z) (s : CmsState) :
  let s' := SetExtraText text font s in
  (text = "p" -> extraText s' = "Preliminary") /\
  (text = "s" -> extraText s' = "Simulation") /\
  (text = "su" -> extraText s' = "Supplementary") /\
  (text = "wip" -> extraText s' = "Work in progress") /\
  (text = "pw" -> extraText s' = "Private work (CMS data)" /\
                  cmsText s' = "" /\ useCmsLogo s' = "") /\
  (contains "Private" (extraText s') = true -> cmsText s' = "" /\ useCmsLogo s' = "") /\
  (contains "Private" (extraText s') = false ->
     cmsText s' = cmsText s /\ useCmsLogo s' = useCmsLogo s).
Proof.
  intros s'.
  split; [intros ->; reflexivity |].
  split; [intros ->; reflexivity |].
  split; [intros ->; reflexivity |].
  split; [intros ->; reflexivity |].
  split; [intros ->; repeat split |].
  subst s'. unfold SetExtraText.
  set (extra := if String.eqb text "p" then _ else _).
  destruct (contains "Private" extra) eqn:E; simpl; rewrite E; split; intros H;
    (discriminate H || (split; reflexivity)).
Qed.

Lemma energy_not_both (e : Q) :
  Qabs (e - 13) < 0.001 -> Qabs (e - 13.6) < 0.001 -> False.
Proof.
  intros H1 H2. apply Qabs_diff_Qlt_condition in H1, H2. lra.
Qed.

(** C5: for a non-zero energy, a value within 0.001 of 13 gives
    ["13 " ++ unit], within 0.001 of 13.6 gives ["13.6 " ++ unit], both
    without a message; any other value gives ["???? " ++ unit] and the
    error message on [std::cerr].  The setter is total. *)
Theorem SetEnergy_spec (energy : Q) (unit : string) (s : CmsState)
    (Hnz : ~ energy == 0) :
  let '(s', err) := SetEnergy energy unit s in
  (Qabs (energy - 13) < 0.001 -> cms_energy s' = ("13 " ++ unit)%string /\ err = []) /\
  (Qabs (energy - 13.6) < 0.001 -> cms_energy s' = ("13.6 " ++ unit)%string /\ err = []) /\
  (~ Qabs (energy - 13) < 0.001 -> ~ Qabs (energy - 13.6) < 0.001 ->
     cms_energy s' = ("???? " ++ unit)%string /\ err = [Cerr energy_error]).
Proof.
  unfold SetEnergy.
  destruct (Qeq_bool energy 0) eqn:Ez.
  { apply Qeq_bool_iff in Ez. contradiction. }
  destruct (Qltb (Qabs (energy - 13)) 0.001) eqn:E13;
    [| destruct (Qltb (Qabs (energy - 13.6)) 0.001) eqn:E136]; cbn [set_energy_str cms_energy].
  - apply Qltb_iff in E13. split; [| split]; intros H; [split; reflexivity | |].
    + exfalso. exact (energy_not_both energy E13 H).
    + contradiction.
  - split; [| split]; intros H.
    + apply (proj2 (Qltb_iff _ _)) in H. congruence.
    + split; reflexivity.
    + intros H'. apply Qltb_iff in E136. contradiction.
  - split; [| split]; intros H.
    + apply (proj2 (Qltb_iff _ _)) in H. congruence.
    + apply (proj2 (Qltb_iff _ _)) in H. congruence.
    + intros _. split; reflexivity.
Qed.

(** Witness of [SetEnergy_spec] at 13.6 TeV. *)
Lemma SetEnergy_spec_witness :
  ~ (136 # 10) == 0 /\
  (let '(s', err) := SetEnergy (136 # 10) "TeV" Ex.st in
   (Qabs ((136 # 10) - 13) < 0.001 -> cms_energy s' = ("13 " ++ "TeV")%string /\ err = []) /\
   (Qabs ((136 # 10) - 13.6) < 0.001 -> cms_energy s' = ("13.6 " ++ "TeV")%string /\ err = []) /\
   (~ Qabs ((136 # 10) - 13) < 0.001 -> ~ Qabs ((136 # 10) - 13.6) < 0.001 ->
      cms_energy s' = ("???? " ++ "TeV")%string /\ err = [Cerr energy_error])).
Proof.
  assert (Hnz : ~ (136 # 10) == 0) by (intro H; discriminate H).
  split; [exact Hnz |].
  exact (SetEnergy_spec (136 # 10) "TeV" Ex.st Hnz).
Defined.

(** C6: for a non-negative value the caption is the run label followed by
    ", " when the label is non-empty, the value with [round_lumi] fixed
    decimals when [0 <= round_lumi < 3] and with the stream's default
    formatting otherwise, a space, the unit and "^{#minus1}"; with precision
    1, value 45.0, unit "fb" and run "Run 3" it is "Run 3, 45.0 fb^{#minus1}". *)
Theorem SetLumi_caption (stream_default : Q -> string) (lumi : Q) (unit run : string)
    (round_lumi : Z) (s : CmsState) (Hl : 0 <= lumi) :
  cms_lumi (SetLumi stream_default lumi unit run round_lumi s) =
    ((if String.eqb run "" then "" else run ++ ", ") ++
     (if (0 <=? round_lumi)%Z && (round_lumi <? 3)%Z
      then fixed (Z.to_nat round_lumi) lumi else stream_default lumi) ++
     " " ++ unit ++ "^{#minus1}")%string /\
  cms_lumi (SetLumi stream_default 45 "fb" "Run 3" 1 s) = "Run 3, 45.0 fb^{#minus1}".
Proof.
  split; [| reflexivity].
  unfold SetLumi.
  apply Qle_bool_iff in Hl. rewrite Hl. cbn [set_lumi_str cms_lumi].
  destruct run as [| c run']; reflexivity.
Qed.

(** Witness of [SetLumi_caption] at 45.0 fb, run "Run 3", precision 1. *)
Lemma SetLumi_caption_witness :
  0 <= 45 /\
  cms_lumi (SetLumi (fun _ => "") 45 "fb" "Run 3" 1 Ex.st) = "Run 3, 45.0 fb^{#minus1}".
Proof.
  assert (Hl : 0 <= 45) by (vm_compute; discriminate).
  split; [exact Hl |].
  rewrite (proj1 (SetLumi_caption (fun _ => "") 45 "fb" "Run 3" 1 Ex.st Hl)).
  reflexivity.
Defined.

End SetterFacts.

Module StackFacts.

Import Objects Stack.
Open Scope Q_scope.

(** C7 (the code misses the claim): with four histograms and an empty
    color list the curated set [getPettroffColorSet 4] is computed but never
    read: with a color key in the configuration the loop reads [colors[0]]
    of the empty vector (out of bounds, [None]), and with no color key the
    histograms keep their own colors (here four identical ones).  This holds
    whatever the curated sets are. *)
Theorem buildTHStack_empty_colors (getPettroffColorSet : nat -> list Z) :
  buildTHStack getPettroffColorSet [Ex2.hist; Ex2.hist; Ex2.hist; Ex2.hist] [] ""
    [("FillColor", 0)] = None /\
  buildTHStack getPettroffColorSet [Ex2.hist; Ex2.hist; Ex2.hist; Ex2.hist] [] "" [] =
    Some (mkTHStack "STACK" [Ex2.hist; Ex2.hist; Ex2.hist; Ex2.hist]).
Proof. split; reflexivity. Qed.

End StackFacts.

Module StatsFacts.

Import Objects Stats.
Open Scope Q_scope.

(** C8: with no stats box on the pad the call reports the error and returns
    [nullptr] with the pad untouched; with a box and a corner token whose
    lower-case form is none of "tr", "tl", "bl", "br", it reports the error
    and returns the box with the box and the pad unchanged. *)
Theorem changeStatsBox_rejects (pcanv : PadS) (ipos_x1 : string) (xscale yscale : Q)
    (confs : Confs) :
  (stats pcanv = None ->
   changeStatsBox pcanv ipos_x1 xscale yscale confs =
     Some (None, pcanv, [Cerr no_stats_error])) /\
  (forall box, stats pcanv = Some box ->
   ~ In (lower ipos_x1) ["tr"; "tl"; "bl"; "br"] ->
   changeStatsBox pcanv ipos_x1 xscale yscale confs =
     Some (Some box, pcanv, [Cerr (invalid_code_error ipos_x1)])).
Proof.
  unfold changeStatsBox. split.
  - intros ->. reflexivity.
  - intros box -> Hbad.
    destruct (String.eqb (lower ipos_x1) "tr") eqn:E1;
      [apply String.eqb_eq in E1; exfalso; apply Hbad; rewrite E1; simpl; tauto |].
    destruct (String.eqb (lower ipos_x1) "tl") eqn:E2;
      [apply String.eqb_eq in E2; exfalso; apply Hbad; rewrite E2; simpl; tauto |].
    destruct (String.eqb (lower ipos_x1) "bl") eqn:E3;
      [apply String.eqb_eq in E3; exfalso; apply Hbad; rewrite E3; simpl; tauto |].
    destruct (String.eqb (lower ipos_x1) "br") eqn:E4;
      [apply String.eqb_eq in E4; exfalso; apply Hbad; rewrite E4; simpl; tauto |].
    reflexivity.
Qed.

End StatsFacts.

Module PaletteFacts.

Import Palette.
Open Scope Q_scope.

Section Facts.

Variable ColorTable : Type.
Variable CreateGradientColorTable :
  nat -> list Q -> list Q -> list Q -> list Q -> Z -> Q -> ColorTable -> Z * ColorTable.

Local Abbreviation Create := (CreateAlternativePalette ColorTable CreateGradientColorTable).
Local Abbreviation SetAlt := (SetAlternative2DColor ColorTable CreateGradientColorTable).

Lemma Create_cache (alpha : Q) (ps : PState ColorTable) :
  exists ct, usingPalette2D _ (Create alpha ps) =
             map (fun i => (ct + Z.of_nat i)%Z) (seq 0 200).
Proof.
  unfold CreateAlternativePalette.
  destruct (CreateGradientColorTable _ _ _ _ _ _ _ _) as [ct w].
  exists ct. reflexivity.
Qed.

Lemma SetAlt_cache_nonempty (hist style : option Z) (alpha : Q) (ps : PState ColorTable) :
  usingPalette2D _ (SetAlt hist style alpha ps) <> [].
Proof.
  unfold SetAlternative2DColor. cbn [usingPalette2D].
  destruct (Nat.eqb (List.length (usingPalette2D _ ps)) 0) eqn:E.
  - destruct (Create_cache alpha ps) as [ct ->]. discriminate.
  - intros H. rewrite H in E. discriminate.
Qed.

Lemma SetAlt_cached (hist style : option Z) (alpha : Q) (ps : PState ColorTable) :
  usingPalette2D _ ps <> [] ->
  SetAlt hist style alpha ps =
    {| usingPalette2D := usingPalette2D _ ps; colors := colors _ ps;
       cmsStyle := cmsStyle _ ps; gStyle := gStyle _ ps;
       palette_of := fun k =>
         if Z.eqb k (match style with
                     | Some st => st
                     | None => match cmsStyle _ ps with None => gStyle _ ps | Some c => c end
                     end)
         then usingPalette2D _ ps else palette_of _ ps k;
       contour_of := fun k => match hist with
                              | Some h => if Z.eqb k h then List.length (usingPalette2D _ ps)
                                          else contour_of _ ps k
                              | None => contour_of _ ps k
                              end |}.
Proof.
  intros Hne. unfold SetAlternative2DColor.
  assert (E : Nat.eqb (List.length (usingPalette2D _ ps)) 0 = false).
  { destruct (usingPalette2D _ ps); [contradiction | reflexivity]. }
  rewrite E. reflexivity.
Qed.

(** C9: the gradient builder fills the cache with exactly 200 consecutive
    color indices (whatever it held before: an explicit regeneration
    refills it); SetAlternative2DColor builds the palette only when the
    cache is empty, and with a non-empty cache it leaves the cache and the
    color table alone and does not depend on its alpha argument; so after a
    first call every later call reuses the cached table unchanged. *)
Theorem palette_cache_reuse (alpha alpha' : Q) (hist style hist' style' : option Z)
    (ps : PState ColorTable) :
  (exists ct, usingPalette2D _ (Create alpha ps) =
              map (fun i => (ct + Z.of_nat i)%Z) (seq 0 200)) /\
  (usingPalette2D _ ps = [] ->
   usingPalette2D _ (SetAlt hist style alpha ps) = usingPalette2D _ (Create alpha ps)) /\
  (usingPalette2D _ ps <> [] ->
   usingPalette2D _ (SetAlt hist style alpha ps) = usingPalette2D _ ps /\
   colors _ (SetAlt hist style alpha ps) = colors _ ps /\
   SetAlt hist style alpha ps = SetAlt hist style alpha' ps) /\
  (let ps1 := SetAlt hist style alpha ps in
   SetAlt hist' style' alpha' ps1 = SetAlt hist' style' alpha ps1 /\
   usingPalette2D _ (SetAlt hist' style' alpha' ps1) = usingPalette2D _ ps1).
Proof.
  split; [apply Create_cache |].
  split.
  { intros E. unfold SetAlternative2DColor. rewrite E. reflexivity. }
  split.
  { intros Hne. rewrite !(SetAlt_cached _ _ _ _ Hne). repeat split. }
  intros ps1.
  pose proof (SetAlt_cache_nonempty hist style alpha ps) as Hne.
  fold ps1 in Hne.
  rewrite !(SetAlt_cached _ _ _ _ Hne). split; reflexivity.
Qed.

End Facts.

End PaletteFacts.

Module DrawFacts.

Import Objects.
Open Scope Q_scope.

Lemma contains_SAME_prefix (option_ : string) :
  contains "SAME" ("SAME" ++ option_) = true.
Proof. destruct option_; reflexivity. Qed.

(** Whenever cmsObjectDraw reaches the draw call, the option contains
    "SAME": it is the given option if that contains "SAME", and "SAME"
    prepended to it otherwise. *)
Lemma cmsObjectDraw_option (obj : TObj) (option_ : string) (confs : Confs)
    (obj' : TObj) (prefix : string) :
  cmsObjectDraw obj option_ confs = Some (obj', prefix) ->
  prefix = (if contains "SAME" option_ then option_ else "SAME" ++ option_) /\
  contains "SAME" prefix = true.
Proof.
  unfold cmsObjectDraw.
  destruct (setRootObjectProperties obj confs); [| discriminate].
  intros H. injection H as _ <-.
  destruct (contains "SAME" option_) eqn:E; split; try reflexivity.
  - exact E.
  - apply contains_SAME_prefix.
Qed.

(** C10 (the code misses the claim): a [THStack] has no line attributes, so
    with the configuration {"LineColor": 2} the unchecked [dynamic_cast]
    in setRootObjectProperties yields [nullptr] and the call crashes before
    anything is drawn; with no configuration the draw option is "SAME". *)
Theorem cmsObjectDraw_stack_linecolor :
  cmsObjectDraw a_THStack "" [("LineColor", 2)] = None /\
  cmsObjectDraw a_THStack "" [] = Some (a_THStack, "SAME").
Proof. split; reflexivity. Qed.

End DrawFacts.

Module CaptionFacts.

Import Setters Captions Predicates.
Open Scope Q_scope.

(** ResetCmsDescriptors after SetExtraText "pw": the wordmark, extra text,
    luminosity and energy captions come back and the additional lines are
    cleared, but the logo reference stays cleared. *)
Theorem reset_after_private_work (font : Z) (s : CmsState) :
  let s' := ResetCmsDescriptors (SetExtraText "pw" font s) in
  cmsText s' = "CMS" /\ extraText s' = "Preliminary" /\
  cms_lumi s' = "Run 2, 138 fb^{#minus1}" /\ cms_energy s' = "13 TeV" /\
  additionalInfo s' = [] /\ useCmsLogo s' = "".
Proof. repeat split. Qed.

Section Files.

Variable readable : string -> bool.
Variable CMSSTYLE_DIR : option string.

(** SetCmsLogoFilename only changes the logo reference.  An empty name
    clears it silently; otherwise the result is either a readable path (the
    name itself, or CMSSTYLE_DIR/name when the name is not readable) with
    no message, or the empty reference with the "could not be found"
    message. *)
Theorem SetCmsLogoFilename_outcome (filename : string) (s : CmsState) :
  let '(s', err) := SetCmsLogoFilename readable CMSSTYLE_DIR filename s in
  s' = set_logo s (useCmsLogo s') /\
  (filename = "" -> useCmsLogo s' = "" /\ err = []) /\
  (filename <> "" ->
   (useCmsLogo s' = "" /\ err = [Cerr (logo_error filename)]) \/
   (readable (useCmsLogo s') = true /\ err = [] /\
    (useCmsLogo s' = filename \/
     (readable filename = false /\
      exists x, CMSSTYLE_DIR = Some x /\ useCmsLogo s' = (x ++ "/" ++ filename)%string)))).
Proof.
  unfold SetCmsLogoFilename.
  destruct filename as [| c f] eqn:Ef.
  { cbn. split; [reflexivity | split; [intros _; split; reflexivity | intros H; congruence]]. }
  rewrite <- Ef.
  assert (Hl0 : Nat.eqb (String.length filename) 0 = false) by (rewrite Ef; reflexivity).
  rewrite Hl0.
  destruct (readable filename) eqn:Er.
  - cbn. split; [reflexivity | split; [intros H; congruence |]].
    intros _. right. split; [exact Er | split; [reflexivity | left; reflexivity]].
  - destruct CMSSTYLE_DIR as [x |] eqn:Ed.
    + destruct (readable (x ++ "/" ++ filename)%string) eqn:Ep.
      * assert (Hl : Nat.eqb (String.length (x ++ "/" ++ filename)) 0 = false).
        { destruct x; reflexivity. }
        rewrite Hl. cbn [useCmsLogo set_logo].
        split; [reflexivity | split; [intros H; congruence |]].
        intros _. right. split; [exact Ep | split; [reflexivity |]].
        right. split; [reflexivity | exists x; split; reflexivity].
      * cbn. split; [reflexivity | split; [intros H; congruence |]].
        intros _. left. split; reflexivity.
    + cbn. split; [reflexivity | split; [intros H; congruence |]].
      intros _. left. split; reflexivity.
Qed.



End Files.

(** Edge cases of the setters: energy 0 sets the energy caption to the unit
    alone, with no message; a negative luminosity leaves only the run label
    (no comma, no value, no unit). *)
Theorem setter_edge_cases (stream_default : Q -> string) (unit run : string)
    (lumi : Q) (round_lumi : Z) (s : CmsState) :
  SetEnergy 0 unit s = (set_energy_str s unit, []) /\
  (lumi < 0 -> cms_lumi (SetLumi stream_default lumi unit run round_lumi s) = run).
Proof.
  split; [reflexivity |].
  intros Hl. unfold SetLumi.
  destruct (Qle_bool 0 lumi) eqn:E.
  - apply Qle_bool_iff in E. exfalso. exact (Qlt_not_le _ _ Hl E).
  - destruct run; reflexivity.
Qed.

End CaptionFacts.

Module LumiExtraFacts.

Import Lumi LumiFacts Predicates.
Open Scope Q_scope.

(** For every position code, the first thing [CMS_lumi] draws is the
    luminosity caption: right-aligned (align 31) at [x = 1 - r], at
    [y = 1 - t + lumiTextOffset * t], in font 42, reading [cms_lumi] followed
    by [" (cms_energy)"] only when the energy caption is not empty. *)
Theorem CMS_lumi_first_event (s : CmsState) (ppad : Pad) (code : Z) (sc : Q) :
  let t := GetTopMargin ppad in
  hd_error (CMS_lumi s ppad code sc) =
    Some (DrawText
            (if String.eqb (cms_energy s) "" then cms_lumi s
             else (cms_lumi s ++ " (" ++ cms_energy s ++ ")")%string)
            (1 - GetRightMargin ppad) (1 - t + lumiTextOffset s * t) 42 31
            (lumiTextSize s * t * sc)).
Proof.
  unfold CMS_lumi. destruct (decode code) as [[[o ax] ay] al]. reflexivity.
Qed.

(** Out of the frame (tens digit 0) every text is written on the line of
    the luminosity caption, no logo is ever added and no additional-info
    line is drawn: a graphical logo and additional-info lines are only
    reported by a warning, each given exactly when the logo reference, resp.
    the list of additional lines, is not empty.  The texts drawn are exactly
    the luminosity caption, then the wordmark and the extra text when they
    are not empty. *)
Theorem CMS_lumi_outframe_layout (s : CmsState) (ppad : Pad) (code : Z) (sc : Q)
    (Hq : Z.quot code 10 = 0%Z) :
  let t := GetTopMargin ppad in
  let evs := CMS_lumi s ppad code sc in
  (forall e, In e evs ->
     match e with
     | DrawText _ _ y _ _ _ => y = 1 - t + lumiTextOffset s * t
     | AddLogo _ _ _ _ _ => False
     | Cerr m => m = logo_warning \/ m = info_warning
     end) /\
  (In (Cerr logo_warning) evs <-> useCmsLogo s <> "") /\
  (In (Cerr info_warning) evs <-> additionalInfo s <> []) /\
  drawn_texts evs =
    (if String.eqb (cms_energy s) "" then cms_lumi s
     else (cms_lumi s ++ " (" ++ cms_energy s ++ ")")%string)
    :: (if String.eqb (cmsText s) "" then [] else [cmsText s])
    ++ (if String.eqb (extraText s) "" then [] else [extraText s]).
Proof.
  unfold CMS_lumi, decode. rewrite Hq. cbn zeta iota beta.
  rewrite !length_ltb_0, !length_eqb_0.
  destruct (String.eqb_spec (useCmsLogo s) "") as [El | El];
  destruct (String.eqb_spec (cmsText s) "") as [Ec | Ec];
  destruct (String.eqb_spec (extraText s) "") as [Ex | Ex];
  destruct (additionalInfo s) as [| i is];
  simpl; unfold logo_warning, info_warning;
  (split; [intros e Hin; repeat (destruct Hin as [<- | Hin]; [simpl; tauto |]); contradiction
          | split;
            [split; intros H;
             [repeat (destruct H as [H | H]; [try discriminate H; try exact El |]);
              try contradiction; try discriminate
             | try contradiction; try discriminate; simpl; tauto]
            | split;
              [split; intros H;
               [repeat (destruct H as [H | H]; [try discriminate H; try discriminate |]);
                try contradiction; try discriminate
               | try contradiction; try discriminate; simpl; tauto]
              | reflexivity]]]).
Qed.

(** In the frame (tens digit not 0) with a graphical logo set, the logo
    replaces the wordmark and the extra text: after the luminosity caption
    only the logo pad is added, in the top-left corner of the frame, and the
    additional-info lines follow below the top of the logo. *)
Theorem CMS_lumi_inframe_logo (s : CmsState) (ppad : Pad) (code : Z) (sc : Q)
    (Hq : Z.quot code 10 <> 0%Z) (Hlogo : useCmsLogo s <> "") :
  let H := GetWh ppad * GetHNDC ppad in
  let W := GetWw ppad * GetWNDC ppad in
  let l := GetLeftMargin ppad in let t := GetTopMargin ppad in
  let r := GetRightMargin ppad in let b := GetBottomMargin ppad in
  let x := l + 0.045 * (1 - l - r) * W / H in
  let y := 1 - t - 0.045 * (1 - t - b) in
  let al := (10 * Z.max (Z.quot code 10) 1 + 3)%Z in
  tl (CMS_lumi s ppad code sc) =
    AddLogo x (y - 0.15) (x + 0.15 * H / W) y (useCmsLogo s)
    :: additional_lines s x y t al 0 (additionalInfo s).
Proof.
  assert (H0 : Z.eqb code 0 = false).
  { apply Z.eqb_neq. intros ->. apply Hq. reflexivity. }
  unfold CMS_lumi, decode.
  rewrite (proj2 (Z.eqb_neq _ _) Hq), H0.
  cbn zeta iota beta. simpl tl. rewrite length_ltb_0.
  destruct (String.eqb_spec (useCmsLogo s) "") as [E | E]; [contradiction |].
  reflexivity.
Qed.

End LumiExtraFacts.

Module MaxYFacts.

Import MaxY Predicates.
Open Scope Q_scope.

Lemma update_max (m v : Q) :
  m <= (if Qltb m v then v else m) /\ v <= (if Qltb m v then v else m).
Proof.
  unfold Qltb. destruct (Qle_bool v m) eqn:E; simpl.
  - apply Qle_bool_iff in E. split; [apply Qle_refl | exact E].
  - split; [| apply Qle_refl].
    apply Qlt_le_weak, Qnot_le_lt. intros Hc. apply Qle_bool_iff in Hc. congruence.
Qed.

Lemma update_max_cases (m v : Q) :
  (if Qltb m v then v else m) = m \/ (if Qltb m v then v else m) = v.
Proof. destruct (Qltb m v); tauto. Qed.

(** The graph loop over the points [0 .. i-1]. *)
Lemma graph_loop_bound (y eys eyh : list Q) :
  forall i m0 m,
  graph_loop y (Some eys) eyh i m0 = Some m ->
  let f := point_value y eys eyh in
  m0 <= m /\ (forall k, (k < i)%nat -> f k <= m) /\
  (m = m0 \/ exists k, (k < i)%nat /\ m = f k).
Proof.
  induction i as [| i IH]; intros m0 m Hg f; subst f.
  - injection Hg as <-. split; [apply Qle_refl | split; [intros k Hk; lia | left; reflexivity]].
  - simpl in Hg. fold (point_value y eys eyh i) in Hg. apply IH in Hg.
    destruct Hg as (H1 & H2 & H3).
    destruct (update_max m0 (point_value y eys eyh i)) as [U1 U2].
    split; [exact (Qle_trans _ _ _ U1 H1) |].
    split.
    + intros k Hk. destruct (Nat.eq_dec k i) as [-> | Hne].
      * exact (Qle_trans _ _ _ U2 H1).
      * apply H2. lia.
    + destruct H3 as [-> | (k & Hk & ->)].
      * destruct (update_max_cases m0 (point_value y eys eyh i)) as [-> | ->]; [left; reflexivity |].
        right. exists i. split; [lia | reflexivity].
      * right. exists k. split; [lia | reflexivity].
Qed.

Lemma obj_step_bound (m0 : Q) (o : PlotObj) (m : Q) (err : list Event) :
  obj_step m0 o = Some (m, err) ->
  m0 <= m /\ (forall v, In v (obj_values o) -> v <= m) /\
  (m = m0 \/ In m (obj_values o)) /\
  err = (match o with ObjOther => [Cerr maxY_error] | _ => [] end).
Proof.
  destruct o as [c e | mx | y [eys |] eyh |]; simpl; intros Hs.
  - injection Hs as <- <-. destruct (update_max m0 (c + e)) as [U1 U2].
    split; [exact U1 | split; [intros v [<- | []]; exact U2 | split; [| reflexivity]]].
    destruct (update_max_cases m0 (c + e)) as [-> | ->]; [left | right; left]; reflexivity.
  - injection Hs as <- <-. destruct (update_max m0 mx) as [U1 U2].
    split; [exact U1 | split; [intros v [<- | []]; exact U2 | split; [| reflexivity]]].
    destruct (update_max_cases m0 mx) as [-> | ->]; [left | right; left]; reflexivity.
  - destruct (graph_loop y (Some eys) eyh (List.length y) m0) as [g |] eqn:Eg; [| discriminate].
    injection Hs as <- <-. apply graph_loop_bound in Eg as (H1 & H2 & H3).
    split; [exact H1 | split; [| split; [| reflexivity]]].
    + intros v Hv. apply in_map_iff in Hv as (k & <- & Hk).
      apply in_seq in Hk. apply H2. lia.
    + destruct H3 as [-> | (k & Hk & ->)]; [left; reflexivity |].
      right. apply in_map. apply in_seq. lia.
  - destruct (List.length y); simpl in Hs; [| discriminate Hs].
    injection Hs as <- <-. split; [apply Qle_refl | split; [intros v [] | split; [left |]]]; reflexivity.
  - injection Hs as <- <-. split; [apply Qle_refl | split; [intros v [] | split; [left |]]]; reflexivity.
Qed.

Lemma maxY_loop_bound (objs : list PlotObj) :
  forall m0 m err,
  maxY_loop m0 objs = Some (m, err) ->
  m0 <= m /\ (forall o v, In o objs -> In v (obj_values o) -> v <= m) /\
  (m = m0 \/ exists o, In o objs /\ In m (obj_values o)) /\
  err = unsupported_errors objs.
Proof.
  induction objs as [| o rest IH]; intros m0 m err Hl.
  - injection Hl as <- <-.
    split; [apply Qle_refl | split; [intros o v [] | split; [left |]]]; reflexivity.
  - simpl in Hl.
    destruct (obj_step m0 o) as [[m1 e1] |] eqn:E1; [| discriminate].
    destruct (maxY_loop m1 rest) as [[m2 e2] |] eqn:E2; [| discriminate].
    injection Hl as <- <-.
    apply obj_step_bound in E1 as (A1 & A2 & A3 & A4).
    apply IH in E2 as (B1 & B2 & B3 & B4).
    split; [exact (Qle_trans _ _ _ A1 B1) |].
    split; [| split].
    + intros o' v [<- | Ho] Hv; [exact (Qle_trans _ _ _ (A2 v Hv) B1) | exact (B2 o' v Ho Hv)].
    + destruct B3 as [-> | (o' & Ho & Hv)].
      * destruct A3 as [-> | Hv]; [left; reflexivity | right; exists o; split; [left; reflexivity | exact Hv]].
      * right. exists o'. split; [right; exact Ho | exact Hv].
    + simpl. rewrite A4, B4. reflexivity.
Qed.

(** When [cmsReturnMaxY] returns, its result is non-negative, at least every
    value a supported object contributes (a histogram's highest bin plus its
    error, a stack's maximum, each graph point plus the larger of its two
    y errors), and either 0 or one of these values; one error message is
    printed for each unsupported object, in order. *)
Theorem cmsReturnMaxY_bound (objs : list PlotObj) (m : Q) (err : list Event)
    (H : cmsReturnMaxY objs = Some (m, err)) :
  0 <= m /\ (forall o v, In o objs -> In v (obj_values o) -> v <= m) /\
  (m = 0 \/ exists o, In o objs /\ In m (obj_values o)) /\
  err = unsupported_errors objs.
Proof. exact (maxY_loop_bound objs 0 m err H). Qed.

Lemma graph_loop_some (y eys eyh : list Q) :
  forall i m, graph_loop y (Some eys) eyh i m <> None.
Proof. induction i as [| i IH]; intros m; simpl; [discriminate | apply IH]. Qed.

(** [cmsReturnMaxY] dereferences a null pointer (here: returns [None])
    exactly when the list holds a graph with points and no y-error array
    ([GetEY()] of a plain [TGraph]); on every other list it returns. *)
Theorem cmsReturnMaxY_crash (objs : list PlotObj) :
  cmsReturnMaxY objs = None <-> exists o, In o objs /\ bad_graph o = true.
Proof.
  unfold cmsReturnMaxY. generalize 0.
  induction objs as [| o rest IH]; intros m0; simpl.
  - split; [discriminate | intros (o & [] & _)].
  - assert (Hs : obj_step m0 o = None <-> bad_graph o = true).
    { destruct o as [c e | mx | [| y0 y] [eys |] eyh |]; simpl;
        try (split; intros Hx; discriminate Hx || reflexivity).
      destruct (graph_loop _ _ _ _ _) eqn:Eg.
      - split; intros Hx; discriminate Hx.
      - exfalso. exact (graph_loop_some _ _ _ _ _ Eg). }
    destruct (obj_step m0 o) as [[m1 e1] |] eqn:E1.
    + specialize (IH m1).
      destruct (maxY_loop m1 rest) as [[m2 e2] |] eqn:E2.
      * split; [discriminate |]. intros (o' & [<- | Ho] & Hb).
        -- apply Hs in Hb. discriminate.
        -- assert (Hn : Some (m2, e2) = None) by (apply IH; exists o'; tauto). discriminate.
      * split; [| reflexivity]. intros _.
        destruct (proj1 IH eq_refl) as (o' & Ho & Hb). exists o'. tauto.
    + split; [| reflexivity]. intros _. exists o. split; [left; reflexivity | apply Hs; reflexivity].
Qed.

End MaxYFacts.

Module CanvasFacts.

Import Canvas Predicates.
Open Scope Q_scope.

Lemma Qltb_cases (x y : Q) : (Qltb x y = true /\ x < y) \/ (Qltb x y = false /\ y <= x).
Proof.
  destruct (Qltb x y) eqn:E.
  - left. split; [reflexivity | apply SetterFacts.Qltb_iff, E].
  - right. split; [reflexivity |]. apply Qnot_lt_le. intros H.
    apply SetterFacts.Qltb_iff in H. congruence.
Qed.

Ltac qcase x y :=
  let E := fresh "E" in let Hl := fresh "Hl" in
  destruct (Qltb_cases x y) as [[E Hl] | [E Hl]]; rewrite E.

Lemma left_pixels_mono (square : bool) (y1 y2 : Q) :
  -998 <= y1 -> y1 <= y2 -> y2 < 1.8 -> left_pixels square y1 <= left_pixels square y2.
Proof.
  intros H1 H12 H2. unfold left_pixels.
  qcase y1 (-998); [lra |]. qcase y2 (-998); [lra |].
  qcase y1 1.5; qcase y2 1.5; try qcase y1 1.8; try qcase y2 1.8; lra.
Qed.

Lemma left_pixels_high (square : bool) (y : Q) : 1.8 <= y -> left_pixels square y = 0.145 * 600.
Proof.
  intros H. unfold left_pixels.
  qcase y (-998); [lra |]. qcase y 1.5; [lra |]. qcase y 1.8; [lra | reflexivity].
Qed.

Lemma left_pixels_band (square : bool) (y : Q) :
  1.5 <= y -> y < 1.8 -> 0.145 * 600 + 28.5 <= left_pixels square y.
Proof.
  intros H1 H2. unfold left_pixels.
  qcase y (-998); [lra |]. qcase y 1.5; [lra |]. qcase y 1.8; lra.
Qed.

(** The left margin [cmsCanvas] sets grows with the y-title offset up to
    1.8 (from -998 on; below, the default offset is used), but for offsets
    of 1.8 and more no room is added at all: the margin falls back to that
    of the base width [0.145*H], below the margin of any offset in
    [1.5, 1.8). *)
Theorem cmsCanvas_left_margin (square : bool) (extraSpace : Q) (with_z_axis : bool) :
  let left y := fst (fst (fst (cmsCanvas_margins square extraSpace with_z_axis y))) in
  (forall y1 y2, -998 <= y1 -> y1 <= y2 -> y2 < 1.8 -> left y1 <= left y2) /\
  (forall y, 1.8 <= y -> left y = 0.145 * 600 / (if square then 600 else 800) + extraSpace) /\
  (forall y y', 1.5 <= y -> y < 1.8 -> 1.8 <= y' -> left y' < left y).
Proof.
  unfold cmsCanvas_margins; cbn zeta; simpl fst.
  split; [| split].
  - intros y1 y2 H1 H12 H2. pose proof (left_pixels_mono square y1 y2 H1 H12 H2).
    destruct square; unfold Qdiv in *;
    change (/ 600) with (1 # 600) in *; change (/ 800) with (1 # 800) in *; lra.
  - intros y H. rewrite (left_pixels_high square y H). reflexivity.
  - intros y y' H1 H2 H3. rewrite (left_pixels_high square y' H3).
    pose proof (left_pixels_band square y H1 H2). destruct square; unfold Qdiv in *;
    change (/ 600) with (1 # 600) in *; change (/ 800) with (1 # 800) in *; lra.
Qed.

End CanvasFacts.

Module ObjectFacts.

Import Objects Objects2 Predicates.

Open Scope Q_scope.

Lemma set_property_spec (o : TObj) (kv : string * Q) :
  match set_property o kv with
  | None => has_base o (key_base (fst kv)) = false
  | Some o' => has_base o (key_base (fst kv)) = true /\ forall n, has_base o' n = has_base o n
  end.
Proof.
  destruct kv as [k v]. unfold set_property, key_base. simpl fst.
  destruct o as [[la |] [fa |] [ma |]];
  repeat (destruct (is_key k _ _)); simpl;
  try reflexivity; split; try reflexivity; intros [| [| [| [| n]]]]; reflexivity.
Qed.

Lemma setRoot_none (confs : Confs) :
  forall o, setRootObjectProperties o confs = None <->
            exists kv, In kv confs /\ has_base o (key_base (fst kv)) = false.
Proof.
  induction confs as [| kv rest IH]; intros o; simpl.
  - split; [discriminate | intros (kv & [] & _)].
  - pose proof (set_property_spec o kv) as Hs.
    destruct (set_property o kv) as [o' |].
    + destruct Hs as [Hb Hn]. rewrite IH. split.
      * intros (kv' & Hin & Hf). exists kv'. rewrite Hn in Hf. tauto.
      * intros (kv' & [<- | Hin] & Hf); [congruence |].
        exists kv'. rewrite Hn. tauto.
    + split; [intros _; exists kv; tauto | reflexivity].
Qed.

Lemma setRoot_ignored (confs : Confs) :
  forall o, (forall kv, In kv confs -> key_base (fst kv) = 0%nat) ->
            setRootObjectProperties o confs = Some o.
Proof.
  induction confs as [| [k v] rest IH]; intros o Hk; simpl; [reflexivity |].
  assert (Hk0 : key_base k = 0%nat) by exact (Hk (k, v) (or_introl eq_refl)).
  unfold set_property. unfold key_base in Hk0.
  repeat (destruct (is_key k _ _); [discriminate Hk0 |]).
  apply IH. intros kv Hin. apply Hk. right. exact Hin.
Qed.

(** [setRootObjectProperties] crashes (a member call on the null pointer of
    a failed [dynamic_cast]) exactly when one of the keys of the
    configuration addresses an attribute base (line, fill or marker) the
    object does not have; keys it does not recognise leave the object
    unchanged. *)
Theorem setRootObjectProperties_crash (o : TObj) (confs : Confs) :
  (setRootObjectProperties o confs = None <->
   exists kv, In kv confs /\ has_base o (key_base (fst kv)) = false) /\
  ((forall kv, In kv confs -> key_base (fst kv) = 0%nat) ->
   setRootObjectProperties o confs = Some o).
Proof. split; [apply setRoot_none | apply setRoot_ignored]. Qed.

Lemma trunc_floor (x : Q) : 0 <= x -> trunc x = Qfloor x.
Proof.
  destruct x as [n d]. unfold Qle. simpl. intros H.
  unfold trunc. simpl. apply Z.quot_div_nonneg; lia.
Qed.

Lemma floor_bounds (x : Q) (lo hi : Z) :
  inject_Z lo <= x -> x < inject_Z hi -> (lo <= Qfloor x < hi)%Z.
Proof.
  intros H1 H2. split.
  - rewrite Zle_Qle. apply Qfloor_resp_le in H1. rewrite Qfloor_Z in H1.
    rewrite <- Zle_Qle. exact H1.
  - rewrite Zlt_Qlt. exact (Qle_lt_trans _ _ _ (Qfloor_le x) H2).
Qed.

Lemma round_short_low (v : Q) : 0 <= v + 0.5 -> v + 0.5 < 32768 ->
  round_short v = Qfloor (v + 0.5).
Proof.
  intros H1 H2. unfold round_short, to_short. rewrite trunc_floor by exact H1.
  destruct (floor_bounds (v + 0.5) 0 32768 H1 H2) as [B1 B2].
  rewrite Z.mod_small by lia.
  destruct (32768 <=? Qfloor (v + 0.5))%Z eqn:E; [apply Z.leb_le in E; lia | reflexivity].
Qed.

Lemma round_short_high (v : Q) : 32768 <= v + 0.5 -> v + 0.5 < 65536 ->
  round_short v = (Qfloor (v + 0.5) - 65536)%Z.
Proof.
  intros H1 H2. unfold round_short, to_short.
  rewrite trunc_floor by (apply (Qle_trans _ 32768); [discriminate | exact H1]).
  destruct (floor_bounds (v + 0.5) 32768 65536 H1 H2) as [B1 B2].
  rewrite Z.mod_small by lia.
  destruct (32768 <=? Qfloor (v + 0.5))%Z eqn:E; [reflexivity | apply Z.leb_gt in E; lia].
Qed.

(** A color, line style, fill style or marker style given as a double is
    rounded half up ([floor(v + 0.5)]) while [v + 0.5] stays in
    [[0, 32768)]; from 32768 on, the value wraps to a negative color
    ([floor(v + 0.5) - 65536]).  Shown on [LineColor]. *)
Theorem setRootObjectProperties_color_rounding (o : TObj) (a : LineAttr) (v : Q)
    (Ho : obj_line o = Some a) :
  let res c := Some (mkObj (Some (mkLine c (fLineStyle a) (fLineWidth a)))
                           (obj_fill o) (obj_marker o)) in
  (0 <= v + 0.5 -> v + 0.5 < 32768 ->
   setRootObjectProperties o [("LineColor", v)] = res (Qfloor (v + 0.5))) /\
  (32768 <= v + 0.5 -> v + 0.5 < 65536 ->
   setRootObjectProperties o [("LineColor", v)] = res (Qfloor (v + 0.5) - 65536)%Z).
Proof.
  simpl. unfold with_line. rewrite Ho. split.
  - intros H1 H2. rewrite round_short_low by assumption. reflexivity.
  - intros H1 H2. rewrite round_short_high by assumption. reflexivity.
Qed.

Ltac split_eqb q :=
  repeat match goal with
         | |- context [String.eqb q ?s] =>
             let Hq := fresh "Hq" in
             destruct (String.eqb_spec q s) as [Hq | Hq];
             [subst q; reflexivity |]
         end.

Lemma copy_property_get (o src : TObj) (p : string) :
  full o -> full src ->
  exists o', copy_property o src p = Some o' /\ full o' /\
    forall q, get_prop q o' = if String.eqb q p then get_prop q src else get_prop q o.
Proof.
  destruct o as [[la |] [fa |] [ma |]]; intros Ho;
    try (destruct Ho as (H1 & H2 & H3); simpl in *; congruence).
  destruct src as [[sa |] [sf |] [sm |]]; intros Hs;
    try (destruct Hs as (H1 & H2 & H3); simpl in *; congruence).
  unfold copy_property.
  destruct (String.eqb_spec p "LineColor") as [-> |];
  [| destruct (String.eqb_spec p "LineStyle") as [-> |];
  [| destruct (String.eqb_spec p "LineWidth") as [-> |];
  [| destruct (String.eqb_spec p "FillColor") as [-> |];
  [| destruct (String.eqb_spec p "FillStyle") as [-> |];
  [| destruct (String.eqb_spec p "MarkerColor") as [-> |];
  [| destruct (String.eqb_spec p "MarkerSize") as [-> |];
  [| destruct (String.eqb_spec p "MarkerStyle") as [-> |] ]]]]]]];
  (eexists; split; [reflexivity | split; [unfold full; simpl; repeat split; discriminate |]]);
  intros q.
  all: try (unfold get_prop; simpl; split_eqb q; reflexivity).
  destruct (String.eqb_spec q p) as [-> | Hq]; [| reflexivity].
  unfold get_prop. simpl.
  repeat rewrite (proj2 (String.eqb_neq _ _)) by assumption. reflexivity.
Qed.

(** [copyRootObjectProperties] with an empty configuration, between two
    objects that have all three attribute bases, never crashes, gives every
    listed property the value it has on the source, and leaves every other
    property of the object as it was. *)
Theorem copyRootObjectProperties_copies (o src : TObj) (proplist : list string)
    (Ho : full o) (Hs : full src) :
  exists o', copyRootObjectProperties o src proplist [] = Some o' /\
    forall q, get_prop q o' =
              if existsb (String.eqb q) proplist then get_prop q src else get_prop q o.
Proof.
  unfold copyRootObjectProperties.
  revert o Ho. induction proplist as [| p rest IH]; intros o Ho; simpl.
  - exists o. split; reflexivity.
  - destruct (copy_property_get o src p Ho Hs) as (o1 & E1 & F1 & G1).
    rewrite E1. destruct (IH o1 F1) as (o2 & E2 & G2).
    exists o2. split; [exact E2 |]. intros q. rewrite G2, G1.
    destruct (String.eqb q p), (existsb (String.eqb q) rest); reflexivity.
Qed.

End ObjectFacts.

Module StatsExtraFacts.

Import Objects Stats Predicates.
Open Scope Q_scope.







(** The corner code of [changeStatsBox] is read case-insensitively: two
    codes with the same lower-case form, which is one of the four corners,
    give the same result. *)
Theorem changeStatsBox_case_insensitive (pcanv : PadS) (a a' : string)
    (xscale yscale : Q) (confs : Confs)
    (Hlow : lower a = lower a') (Hcode : In (lower a) corner_codes) :
  changeStatsBox pcanv a xscale yscale confs = changeStatsBox pcanv a' xscale yscale confs.
Proof.
  unfold changeStatsBox. destruct (stats pcanv) as [stbox |]; [| reflexivity].
  cbv zeta. rewrite <- Hlow.
  unfold corner_codes in Hcode.
  destruct (String.eqb_spec (lower a) "tr") as [_ | N1]; [reflexivity |].
  destruct (String.eqb_spec (lower a) "tl") as [_ | N2]; [reflexivity |].
  destruct (String.eqb_spec (lower a) "bl") as [_ | N3]; [reflexivity |].
  destruct (String.eqb_spec (lower a) "br") as [_ | N4]; [reflexivity |].
  exfalso. simpl in Hcode. destruct Hcode as [Hc | [Hc | [Hc | [Hc | []]]]]; congruence.
Qed.

(** [changeStatsBox] with explicit corners only moves the corners given
    above -998: an edge given as -998 or less keeps its position; the text
    size and the lines of the box are never changed. *)
Theorem changeStatsBox_coords_keep (pstats : TPaveStats) (x1 y1 x2 y2 : Q)
    (confs : Confs) (b' : TPaveStats)
    (H : changeStatsBox_coords pstats x1 y1 x2 y2 confs = Some b') :
  (x1 <= -998 -> X1NDC b' = X1NDC pstats) /\ (-998 < x1 -> X1NDC b' = x1) /\
  (y1 <= -998 -> Y1NDC b' = Y1NDC pstats) /\ (-998 < y1 -> Y1NDC b' = y1) /\
  (x2 <= -998 -> X2NDC b' = X2NDC pstats) /\ (-998 < x2 -> X2NDC b' = x2) /\
  (y2 <= -998 -> Y2NDC b' = Y2NDC pstats) /\ (-998 < y2 -> Y2NDC b' = y2) /\
  TextSize b' = TextSize pstats /\ nLines b' = nLines pstats.
Proof.
  unfold changeStatsBox_coords in H.
  destruct (setRootObjectProperties (st_obj pstats) confs); [| discriminate].
  injection H as <-. simpl.
  repeat split; intros Hc;
    first [ rewrite SetterFacts.Qltb_false by (apply Qle_not_lt; exact Hc); reflexivity
          | rewrite (proj2 (SetterFacts.Qltb_iff _ _) Hc); reflexivity ].
Qed.

End StatsExtraFacts.

Module StackExtraFacts.

Import Objects Stack Predicates.
Open Scope Q_scope.

Lemma hist_property_none (colors : list Z) (i : nat) (h : TH1) (kv : string * Q) :
  hist_property colors i h kv = None <->
  color_key (fst kv) = true /\ nth_error colors i = None.
Proof.
  destruct kv as [k v]. unfold hist_property, color_key. simpl fst.
  destruct (is_key k "SetLineColor" "LineColor");
  [| destruct (is_key k "SetFillColor" "FillColor");
  [| destruct (is_key k "SetMarkerColor" "MarkerColor")]]; simpl.
  1-3: destruct (nth_error colors i);
       [split; [intros H; discriminate H | intros [_ H]; discriminate H] | tauto].
  repeat (destruct (is_key k _ _));
    (split; [intros H; discriminate H | intros [H _]; discriminate H]).
Qed.

Lemma configure_none (colors : list Z) (i : nat) (confs : Confs) :
  forall h, configure colors i h confs = None <->
  (exists kv, In kv confs /\ color_key (fst kv) = true) /\ nth_error colors i = None.
Proof.
  induction confs as [| kv rest IH]; intros h; simpl.
  - split; [discriminate | intros ((kv & [] & _) & _)].
  - pose proof (hist_property_none colors i h kv) as Hp.
    destruct (hist_property colors i h kv) as [h' |].
    + rewrite IH. split.
      * intros ((kv' & Hin & Hk) & Hn). split; [exists kv'; tauto | exact Hn].
      * intros ((kv' & [<- | Hin] & Hk) & Hn).
        -- discriminate (proj2 Hp (conj Hk Hn)).
        -- split; [exists kv'; tauto | exact Hn].
    + destruct (proj1 Hp eq_refl) as [Hk Hn].
      split; [intros _; split; [exists kv; tauto | exact Hn] | reflexivity].
Qed.

Lemma add_all_none (colors : list Z) (confs : Confs) (histos : list TH1) :
  forall i, add_all colors confs i histos = None <->
  (exists kv, In kv confs /\ color_key (fst kv) = true) /\
  histos <> [] /\ (List.length colors < i + List.length histos)%nat.
Proof.
  induction histos as [| h rest IH]; intros i; simpl.
  - split; [discriminate | intros (_ & H & _); contradiction].
  - pose proof (configure_none colors i confs h) as Hc.
    rewrite nth_error_None in Hc.
    destruct (configure colors i h confs) as [h' |].
    + specialize (IH (S i)).
      destruct (add_all colors confs (S i) rest) as [hs |].
      * split; [discriminate |]. intros (Hk & _ & Hl).
        destruct rest as [| r rs].
        -- simpl in Hl. assert (Hle : (List.length colors <= i)%nat) by lia.
           discriminate (proj2 Hc (conj Hk Hle)).
        -- assert (Hx : Some hs = None).
           { apply IH. split; [exact Hk | split; [discriminate |]]. simpl in *. lia. }
           discriminate.
      * destruct (proj1 IH eq_refl) as (Hk & _ & Hl).
        split; [intros _; split; [exact Hk | split; [discriminate | lia]] | reflexivity].
    + destruct (proj1 Hc eq_refl) as [Hk Hl].
      split; [intros _; split; [exact Hk | split; [discriminate | lia]] | reflexivity].
Qed.

(** [buildTHStack] reads past the end of the color vector (here: fails)
    exactly when the configuration has a color key (LineColor, FillColor,
    MarkerColor, or their Set... forms) and there are more histograms than
    colors; otherwise it returns a stack with option "STACK" when none is
    given. *)
Theorem buildTHStack_crash (getPettroffColorSet : nat -> list Z) (histos : list TH1)
    (colors : list Z) (stackopt : string) (confs : Confs) :
  (buildTHStack getPettroffColorSet histos colors stackopt confs = None <->
   (exists kv, In kv confs /\ color_key (fst kv) = true) /\
   (List.length colors < List.length histos)%nat) /\
  (forall hs, buildTHStack getPettroffColorSet histos colors stackopt confs = Some hs ->
   hs_opt hs = if String.eqb stackopt "" then "STACK" else stackopt).
Proof.
  unfold buildTHStack. rewrite LumiFacts.length_eqb_0. split.
  - pose proof (add_all_none colors confs histos 0) as Ha.
    destruct (add_all colors confs 0 histos) as [hs |].
    + split; [discriminate |]. intros (Hk & Hl).
      assert (Hx : Some hs = None).
      { apply Ha. split; [exact Hk | split; [| simpl; lia]].
        intros ->. simpl in Hl. lia. }
      discriminate.
    + destruct (proj1 Ha eq_refl) as (Hk & _ & Hl). split; [intros _; split; [exact Hk | simpl in Hl; lia] | reflexivity].
  - intros hs. destruct (add_all colors confs 0 histos); [| discriminate].
    intros E. injection E as <-. reflexivity.
Qed.

Lemma add_all_fill (colors : list Z) (v : Q) (histos : list TH1) :
  forall i, (i + List.length histos <= List.length colors)%nat ->
  exists hs, add_all colors [("FillColor", v)] i histos = Some hs /\
  hs = map (fun '(h, c) => mkTH1 (h_line h) (mkFill (to_short c) (fFillStyle (h_fill h))) (h_marker h))
           (combine histos (firstn (List.length histos) (skipn i colors))).
Proof.
  induction histos as [| h rest IH]; intros i Hl; simpl in *.
  - exists []. split; [reflexivity |]. destruct (skipn i colors); reflexivity.
  - destruct (nth_error colors i) as [c |] eqn:Ec.
    2: { apply nth_error_None in Ec. lia. }
    destruct (IH (S i) ltac:(lia)) as (hs & E & ->).
    unfold hist_property. simpl. rewrite E.
    eexists; split; [reflexivity |].
    assert (Hs : skipn i colors = c :: skipn (S i) colors).
    { clear -Ec. revert i Ec. induction colors as [| x xs IHc]; intros [| i] Ec; simpl in *;
        try discriminate; [injection Ec as ->; reflexivity | apply IHc, Ec]. }
    rewrite Hs. reflexivity.
Qed.

(** With at least as many colors as histograms and the configuration
    [{FillColor: v}], [buildTHStack] gives the i-th histogram the fill color
    [colors[i]] (narrowed to a [short]), whatever [v] is, and changes
    nothing else. *)
Theorem buildTHStack_fill_colors (getPettroffColorSet : nat -> list Z) (histos : list TH1)
    (colors : list Z) (stackopt : string) (v : Q)
    (Hl : (List.length histos <= List.length colors)%nat) :
  exists hs, buildTHStack getPettroffColorSet histos colors stackopt [("FillColor", v)] = Some hs /\
  hs_hists hs =
    map (fun '(h, c) => mkTH1 (h_line h) (mkFill (to_short c) (fFillStyle (h_fill h))) (h_marker h))
        (combine histos (firstn (List.length histos) colors)).
Proof.
  destruct (add_all_fill colors v histos 0 Hl) as (hs & E & Hh).
  unfold buildTHStack. rewrite E. eexists; split; [reflexivity |]. exact Hh.
Qed.

Lemma add_all_markerstyle (colors : list Z) (v : Q) (histos : list TH1) :
  forall i, add_all colors [("MarkerStyle", v)] i histos =
    Some (map (fun h => mkTH1 (h_line h) (h_fill h)
                          (mkMarker (fMarkerColor (h_marker h)) (fMarkerStyle (h_marker h)) v))
              histos).
Proof.
  induction histos as [| h rest IH]; intros i; [reflexivity |].
  simpl. rewrite IH. reflexivity.
Qed.

(** [buildTHStack] with the configuration [{MarkerStyle: v}] sets the
    marker SIZE of every histogram to [v] and leaves the marker style (and
    all other attributes) unchanged; it needs no colors. *)
Theorem buildTHStack_markerstyle_sets_size (getPettroffColorSet : nat -> list Z)
    (histos : list TH1) (colors : list Z) (stackopt : string) (v : Q) :
  exists hs, buildTHStack getPettroffColorSet histos colors stackopt [("MarkerStyle", v)] = Some hs /\
  hs_hists hs =
    map (fun h => mkTH1 (h_line h) (h_fill h)
                    (mkMarker (fMarkerColor (h_marker h)) (fMarkerStyle (h_marker h)) v))
        histos.
Proof.
  unfold buildTHStack. rewrite add_all_markerstyle. eexists; split; reflexivity.
Qed.

End StackExtraFacts.

Module PaletteAxisFacts.

Import Objects2 Predicates.


End PaletteAxisFacts.

Module DrawStackFacts.

Import Objects Stack Stack2 ObjectFacts Predicates.

Lemma a_THStack_base (k : string) :
  has_base a_THStack (key_base k) = Nat.eqb (key_base k) 0.
Proof. unfold key_base. repeat (destruct (is_key k _ _)); reflexivity. Qed.

(** [buildAndDrawTHStack] returns exactly when the stack can be built and
    the default configuration of [cmsObjectDraw] holds no key addressing a
    line, fill or marker attribute (a [THStack] has none: such a key
    crashes); it then draws the stack with the option "SAME" and adds the
    legend entries in the order of the objects, or reversed when
    [reverseleg] is set. *)
Theorem buildAndDrawTHStack_result (getPettroffColorSet : nat -> list Z)
    (default_confs : Confs) (objs : list (TH1 * (string * string)))
    (reverseleg : bool) (colors : list Z) (stackopt : string) (confs : Confs) :
  buildAndDrawTHStack getPettroffColorSet default_confs objs reverseleg colors stackopt confs =
  match buildTHStack getPettroffColorSet (map fst objs) colors stackopt confs with
  | None => None
  | Some hs =>
      if forallb (fun kv => Nat.eqb (key_base (fst kv)) 0) default_confs
      then Some (hs, (if reverseleg then rev (map snd objs) else map snd objs), "SAME")
      else None
  end.
Proof.
  unfold buildAndDrawTHStack.
  destruct (buildTHStack getPettroffColorSet (map fst objs) colors stackopt confs)
    as [hs |]; [| reflexivity].
  unfold cmsObjectDraw.
  destruct (forallb (fun kv => Nat.eqb (key_base (fst kv)) 0) default_confs) eqn:E.
  - rewrite setRoot_ignored; [reflexivity |].
    intros kv Hin. rewrite forallb_forall in E. apply Nat.eqb_eq, E, Hin.
  - assert (Hn : setRootObjectProperties a_THStack default_confs = None).
    { apply setRoot_none. apply Bool.not_true_iff_false in E.
      rewrite forallb_forall in E.
      destruct (List.existsb (fun kv => negb (Nat.eqb (key_base (fst kv)) 0)) default_confs) eqn:Ex.
      - apply existsb_exists in Ex as (kv & Hin & Hk). exists kv. split; [exact Hin |].
        rewrite a_THStack_base. destruct (Nat.eqb (key_base (fst kv)) 0); [discriminate Hk | reflexivity].
      - exfalso. apply E. intros kv Hin.
        destruct (Nat.eqb (key_base (fst kv)) 0) eqn:Ek; [reflexivity |].
        assert (Hx : List.existsb (fun kv => negb (Nat.eqb (key_base (fst kv)) 0)) default_confs = true).
        { apply existsb_exists. exists kv. rewrite Ek. tauto. }
        congruence. }
    rewrite Hn. reflexivity.
Qed.

End DrawStackFacts.

Module ExtraWitnesses.

Import Lumi Objects Objects2 Stats Stack MaxY Predicates Ex3.
Open Scope Q_scope.

(** Witness of [CMS_lumi_outframe_layout] at code 1, with one additional
    line. *)
Lemma CMS_lumi_outframe_layout_witness :
  Z.quot 1 10 = 0%Z /\
  (let t := GetTopMargin Ex.pad in
   let evs := CMS_lumi Ex2.st_info Ex.pad 1 1 in
   (forall e, In e evs ->
      match e with
      | DrawText _ _ y _ _ _ => y = 1 - t + lumiTextOffset Ex2.st_info * t
      | AddLogo _ _ _ _ _ => False
      | Cerr m => m = logo_warning \/ m = info_warning
      end) /\
   (In (Cerr logo_warning) evs <-> useCmsLogo Ex2.st_info <> "") /\
   (In (Cerr info_warning) evs <-> additionalInfo Ex2.st_info <> []) /\
   drawn_texts evs =
     (if String.eqb (cms_energy Ex2.st_info) "" then cms_lumi Ex2.st_info
      else (cms_lumi Ex2.st_info ++ " (" ++ cms_energy Ex2.st_info ++ ")")%string)
     :: (if String.eqb (cmsText Ex2.st_info) "" then [] else [cmsText Ex2.st_info])
     ++ (if String.eqb (extraText Ex2.st_info) "" then [] else [extraText Ex2.st_info])).
Proof.
  split; [reflexivity |].
  exact (LumiExtraFacts.CMS_lumi_outframe_layout Ex2.st_info Ex.pad 1 1 eq_refl).
Defined.

(** Witness of [CMS_lumi_inframe_logo] at code 11 with a logo set. *)
Lemma CMS_lumi_inframe_logo_witness :
  Z.quot 11 10 <> 0%Z /\ useCmsLogo st_logo <> "" /\
  (let H := GetWh Ex.pad * GetHNDC Ex.pad in
   let W := GetWw Ex.pad * GetWNDC Ex.pad in
   let l := GetLeftMargin Ex.pad in let t := GetTopMargin Ex.pad in
   let r := GetRightMargin Ex.pad in let b := GetBottomMargin Ex.pad in
   let x := l + 0.045 * (1 - l - r) * W / H in
   let y := 1 - t - 0.045 * (1 - t - b) in
   let al := (10 * Z.max (Z.quot 11 10) 1 + 3)%Z in
   tl (CMS_lumi st_logo Ex.pad 11 1) =
     AddLogo x (y - 0.15) (x + 0.15 * H / W) y (useCmsLogo st_logo)
     :: additional_lines st_logo x y t al 0 (additionalInfo st_logo)).
Proof.
  assert (Hq : Z.quot 11 10 <> 0%Z) by (vm_compute; intro Hx; discriminate Hx).
  assert (Hl : useCmsLogo st_logo <> "") by (vm_compute; intro Hx; discriminate Hx).
  split; [exact Hq | split; [exact Hl |]].
  exact (LumiExtraFacts.CMS_lumi_inframe_logo st_logo Ex.pad 11 1 Hq Hl).
Defined.

(** Witness of [cmsReturnMaxY_bound] on a histogram and an unsupported
    object. *)
Lemma cmsReturnMaxY_bound_witness :
  cmsReturnMaxY [ObjTH1 3 1; ObjOther] = Some (3 + 1, [Cerr maxY_error]) /\
  (0 <= 3 + 1 /\
   (forall o v, In o [ObjTH1 3 1; ObjOther] -> In v (obj_values o) -> v <= 3 + 1) /\
   (3 + 1 = 0 \/ exists o, In o [ObjTH1 3 1; ObjOther] /\ In (3 + 1) (obj_values o)) /\
   [Cerr maxY_error] = unsupported_errors [ObjTH1 3 1; ObjOther]).
Proof.
  assert (H : cmsReturnMaxY [ObjTH1 3 1; ObjOther] = Some (3 + 1, [Cerr maxY_error]))
    by reflexivity.
  split; [exact H | exact (MaxYFacts.cmsReturnMaxY_bound _ _ _ H)].
Defined.

(** Witness of [setRootObjectProperties_color_rounding] at 2.4. *)
Lemma setRootObjectProperties_color_rounding_witness :
  obj_line (mkObj (Some (mkLine 1 1 1)) None None) = Some (mkLine 1 1 1) /\
  (let res c := Some (mkObj (Some (mkLine c 1 1)) None None) in
   (0 <= 2.4 + 0.5 -> 2.4 + 0.5 < 32768 ->
    setRootObjectProperties (mkObj (Some (mkLine 1 1 1)) None None) [("LineColor", 2.4)] =
    res (Qfloor (2.4 + 0.5))) /\
   (32768 <= 2.4 + 0.5 -> 2.4 + 0.5 < 65536 ->
    setRootObjectProperties (mkObj (Some (mkLine 1 1 1)) None None) [("LineColor", 2.4)] =
    res (Qfloor (2.4 + 0.5) - 65536)%Z)).
Proof.
  split; [reflexivity |].
  exact (ObjectFacts.setRootObjectProperties_color_rounding
           (mkObj (Some (mkLine 1 1 1)) None None) (mkLine 1 1 1) 2.4 eq_refl).
Defined.

(** Witness of [copyRootObjectProperties_copies]: line color and marker
    size copied. *)
Lemma copyRootObjectProperties_copies_witness :
  full obj_full /\ full src_full /\
  exists o', copyRootObjectProperties obj_full src_full ["LineColor"; "MarkerSize"] [] = Some o' /\
    forall q, get_prop q o' =
              if existsb (String.eqb q) ["LineColor"; "MarkerSize"]
              then get_prop q src_full else get_prop q obj_full.
Proof.
  assert (Ho : full obj_full) by (unfold full; simpl; repeat split; discriminate).
  assert (Hs : full src_full) by (unfold full; simpl; repeat split; discriminate).
  split; [exact Ho | split; [exact Hs |]].
  exact (ObjectFacts.copyRootObjectProperties_copies obj_full src_full _ Ho Hs).
Defined.


(** Witness of [changeStatsBox_case_insensitive] for "TL" and "tl". *)
Lemma changeStatsBox_case_insensitive_witness :
  lower "TL" = lower "tl" /\ In (lower "TL") corner_codes /\
  changeStatsBox pcanv "TL" 1 1 [] = changeStatsBox pcanv "tl" 1 1 [].
Proof.
  assert (Hl : lower "TL" = lower "tl") by reflexivity.
  assert (Hc : In (lower "TL") corner_codes) by (vm_compute; right; left; reflexivity).
  split; [exact Hl | split; [exact Hc |]].
  exact (StatsExtraFacts.changeStatsBox_case_insensitive pcanv "TL" "tl" 1 1 [] Hl Hc).
Defined.

(** Witness of [changeStatsBox_coords_keep]: two edges given as -999 keep
    their place. *)
Lemma changeStatsBox_coords_keep_witness :
  let b' := mkStats (st_obj stbox) 0.7 0.2 0.5 0.9 0 3 in
  changeStatsBox_coords stbox (-999) 0.2 0.5 (-999) [] = Some b' /\
  ((-999 <= -998 -> X1NDC b' = X1NDC stbox) /\ (-998 < -999 -> X1NDC b' = -999) /\
   (0.2 <= -998 -> Y1NDC b' = Y1NDC stbox) /\ (-998 < 0.2 -> Y1NDC b' = 0.2) /\
   (0.5 <= -998 -> X2NDC b' = X2NDC stbox) /\ (-998 < 0.5 -> X2NDC b' = 0.5) /\
   (-999 <= -998 -> Y2NDC b' = Y2NDC stbox) /\ (-998 < -999 -> Y2NDC b' = -999) /\
   TextSize b' = TextSize stbox /\ nLines b' = nLines stbox).
Proof.
  intros b'.
  assert (H : changeStatsBox_coords stbox (-999) 0.2 0.5 (-999) [] = Some b') by reflexivity.
  split; [exact H |].
  exact (StatsExtraFacts.changeStatsBox_coords_keep stbox (-999) 0.2 0.5 (-999) [] b' H).
Defined.

(** Witness of [buildTHStack_fill_colors] with two histograms and two
    colors. *)
Lemma buildTHStack_fill_colors_witness :
  (List.length [Ex2.hist; Ex2.hist] <= List.length [2; 3]%Z)%nat /\
  exists hs, buildTHStack (fun _ => []) [Ex2.hist; Ex2.hist] [2; 3]%Z "" [("FillColor", 0)] = Some hs /\
  hs_hists hs =
    map (fun '(h, c) => mkTH1 (h_line h) (mkFill (to_short c) (fFillStyle (h_fill h))) (h_marker h))
        (combine [Ex2.hist; Ex2.hist] (firstn (List.length [Ex2.hist; Ex2.hist]) [2; 3]%Z)).
Proof.
  assert (Hl : (List.length [Ex2.hist; Ex2.hist] <= List.length [2; 3]%Z)%nat) by (simpl; lia).
  split; [exact Hl |].
  exact (StackExtraFacts.buildTHStack_fill_colors (fun _ => []) [Ex2.hist; Ex2.hist] [2; 3]%Z "" 0 Hl).
Defined.

(** Witness of [cmsObjectDraw_option] with the option "HIST". *)
Lemma cmsObjectDraw_option_witness :
  cmsObjectDraw obj_full "HIST" [] = Some (obj_full, "SAMEHIST") /\
  ("SAMEHIST" = (if contains "SAME" "HIST" then "HIST" else ("SAME" ++ "HIST")%string) /\
   contains "SAME" "SAMEHIST" = true).
Proof.
  assert (H : cmsObjectDraw obj_full "HIST" [] = Some (obj_full, "SAMEHIST")) by reflexivity.
  split; [exact H | exact (DrawFacts.cmsObjectDraw_option obj_full "HIST" [] obj_full "SAMEHIST" H)].
Defined.

End ExtraWitnesses.
